(** * Dropout-risk dashboard: the scoring engine, its batch protocol and the
      upload normaliser, embedded from the TypeScript sources

    - [supabase/functions/predict-dropout-risk/index.ts]: the six risk
      calculators, [predictDropoutRisk] and the request handler passed to
      [serve];
    - [src/pages/Upload.tsx]: [parseCSVContent].

    JavaScript numbers are IEEE-754 binary64 values; they are modelled by
    Rocq's primitive [float], whose operations round exactly as the
    JavaScript ones do. *)

From Stdlib Require Import ZArith List Bool Lia String Ascii DecimalString.
From Stdlib Require Import Floats.
Import ListNotations.

Set Warnings "-inexact-float".

(** ** JavaScript numbers *)

Module JS.

Open Scope float_scope.

(** A number literal of the source. *)
Definition number := float.

(** [a >= b] and [a > b]; both are false as soon as one side is NaN. *)
Definition ge (a b : number) : bool := b <=? a.
Definition gt (a b : number) : bool := b <? a.
Definition lt (a b : number) : bool := a <? b.

(** [a === b] on two numbers. *)
Definition strict_eq (a b : number) : bool := a =? b.

(** Truthiness of a number: every number but [0], [-0] and NaN. *)
Definition truthy (a : number) : bool := negb (is_zero a || is_nan a).

(** An integer of magnitude below 2^53 as a number (exact). *)
Definition of_Z (n : Z) : number :=
  if (n <? 0)%Z then - of_uint63 (Uint63.of_Z (- n))
  else of_uint63 (Uint63.of_Z n).

(** The integer closest to a finite [x], ties going towards +infinity,
    computed exactly: a finite number is [+-m * 2^e]; when [e] is not
    negative it is an integer already, otherwise the result is
    [floor (x + 1/2)].  (NaN and the infinities have no such integer; the
    function is only used on finite numbers and answers 0 there.) *)
Definition round_half_up (x : number) : Z :=
  match Prim2SF x with
  | S754_finite s m e =>
      let sm := if s then Z.neg m else Z.pos m in
      if (0 <=? e)%Z then (sm * 2 ^ e)%Z
      else ((2 * sm + 2 ^ (- e)) / (2 * 2 ^ (- e)))%Z
  | _ => 0%Z
  end.

(** [Math.round]: NaN, the infinities, the zeros and the numbers that are
    integers already are returned as they are; a value in [-0.5, 0)
    rounds to [-0]. *)
Definition Math_round (x : number) : number :=
  match Prim2SF x with
  | S754_finite s m e =>
      if (0 <=? e)%Z then x
      else
        let n := round_half_up x in
        if (n =? 0)%Z then (if s then neg_zero else zero) else of_Z n
  | _ => x
  end.

(** [Math.min] of two numbers: NaN if either is NaN, and [-0] counts as
    smaller than [+0]. *)
Definition Math_min (a b : number) : number :=
  if is_nan a || is_nan b then nan
  else if a <? b then a
  else if b <? a then b
  else if get_sign a then a else b.

End JS.

(** An optional numeric column as the handler receives it.  The [Student]
    interface declares [family_income?: number] and
    [distance_from_home?: number]; the rows themselves come from the record
    store, whose row type ([family_income: number | null],
    [distance_from_home: number | null]) delivers [null] for an unset
    column. *)
Inductive optnum : Type :=
| Undefined
| Null
| Num (x : float).

Module OptNum.

(** [v !== undefined] *)
Definition not_undefined (v : optnum) : bool :=
  match v with Undefined => false | _ => true end.

(** ToNumber, as applied by [<] and [>] to a non-number operand. *)
Definition to_number (v : optnum) : float :=
  match v with
  | Undefined => nan
  | Null => 0%float
  | Num x => x
  end.

(** Truthiness, as tested by [v && ...]. *)
Definition truthy (v : optnum) : bool :=
  match v with
  | Undefined | Null => false
  | Num x => JS.truthy x
  end.

End OptNum.

(** ** Data model of the prediction function *)

Record Student : Type := mkStudent {
  id : string;
  attendance_percentage : float;
  cgpa : float;
  sgpa : float;
  fee_default : bool;
  disciplinary_actions : float;
  scholarship : bool;
  extracurriculars : float;
  semester : float;
  family_income : optnum;
  distance_from_home : optnum;
  hostel_accommodation : bool;
  previous_education_gap : bool
}.

Inductive RiskLevel : Type := low | medium | high.

Record PredictionFactors : Type := mkFactors {
  attendance_impact : float;
  academic_impact : float;
  financial_impact : float;
  behavioral_impact : float;
  engagement_impact : float
}.

Record PredictionResult : Type := mkResult {
  risk_score : float;
  risk_level : RiskLevel;
  prediction_factors : PredictionFactors
}.

(** ** The six risk calculators *)

Section Calculators.

Open Scope float_scope.

Definition calculateAttendanceRisk (attendance : float) : float :=
  if JS.ge attendance 90 then 0.1
  else if JS.ge attendance 80 then 0.3
  else if JS.ge attendance 70 then 0.5
  else if JS.ge attendance 60 then 0.7
  else 0.9.

Definition calculateAcademicRisk (cgpa sgpa : float) : float :=
  let avgGpa := (cgpa + sgpa) / 2 in
  if JS.ge avgGpa 8.0 then 0.1
  else if JS.ge avgGpa 7.0 then 0.2
  else if JS.ge avgGpa 6.0 then 0.4
  else if JS.ge avgGpa 5.0 then 0.6
  else 0.8.

(** The income term of [calculateFinancialRisk]: what the block guarded by
    [familyIncome !== undefined] adds to [risk]. *)
Definition incomeTerm (risk : float) (familyIncome : optnum) : float :=
  if OptNum.not_undefined familyIncome then
    if JS.lt (OptNum.to_number familyIncome) 200000 then risk + 0.3
    else if JS.lt (OptNum.to_number familyIncome) 500000 then risk + 0.1
    else risk
  else risk.

Definition calculateFinancialRisk
  (feeDefault scholarship : bool) (familyIncome : optnum) : float :=
  let risk := 0 in
  let risk := if feeDefault then risk + 0.6 else risk in
  let risk := if negb scholarship then risk + 0.2 else risk in
  let risk := incomeTerm risk familyIncome in
  JS.Math_min risk 1.0.

Definition calculateBehavioralRisk (disciplinaryActions : float) : float :=
  if JS.strict_eq disciplinaryActions 0 then 0.1
  else if JS.strict_eq disciplinaryActions 1 then 0.4
  else if JS.strict_eq disciplinaryActions 2 then 0.6
  else 0.8.

Definition calculateEngagementRisk (extracurriculars : float) : float :=
  if JS.ge extracurriculars 3 then 0.1
  else if JS.ge extracurriculars 2 then 0.2
  else if JS.ge extracurriculars 1 then 0.3
  else 0.5.

(** The distance term of [calculateDemographicRisk]. *)
Definition distanceTerm (risk : float) (distance : optnum) : float :=
  if OptNum.truthy distance && JS.gt (OptNum.to_number distance) 500
  then risk + 0.2 else risk.

Definition calculateDemographicRisk (student : Student) : float :=
  let risk := 0 in
  let risk := distanceTerm risk (distance_from_home student) in
  let risk := if hostel_accommodation student then risk + 0.1 else risk in
  let risk := if previous_education_gap student then risk + 0.3 else risk in
  let risk := if JS.gt (semester student) 6 then risk + 0.1 else risk in
  JS.Math_min risk 1.0.

End Calculators.

(** ** The aggregator *)

Module weights.
Definition attendance : float := 0.25.
Definition academic : float := 0.20.
Definition financial : float := 0.15.
Definition behavioral : float := 0.15.
Definition engagement : float := 0.10.
Definition demographics : float := 0.15.
End weights.

Section Aggregator.

Open Scope float_scope.

(** [Math.round(x * 100) / 100] *)
Definition round2 (x : float) : float := JS.Math_round (x * 100) / 100.

(** The weighted sum, added left to right as the source writes it. *)
Definition weightedScore
  (attendanceRisk academicRisk financialRisk
   behavioralRisk engagementRisk demographicRisk : float) : float :=
  attendanceRisk * weights.attendance +
  academicRisk * weights.academic +
  financialRisk * weights.financial +
  behavioralRisk * weights.behavioral +
  engagementRisk * weights.engagement +
  demographicRisk * weights.demographics.

Definition levelOf (riskScore : float) : RiskLevel :=
  if JS.ge riskScore 0.7 then high
  else if JS.ge riskScore 0.4 then medium
  else low.

(** The unrounded [riskScore] local of [predictDropoutRisk]. *)
Definition riskScoreOf (student : Student) : float :=
  weightedScore
    (calculateAttendanceRisk (attendance_percentage student))
    (calculateAcademicRisk (cgpa student) (sgpa student))
    (calculateFinancialRisk (fee_default student) (scholarship student)
                            (family_income student))
    (calculateBehavioralRisk (disciplinary_actions student))
    (calculateEngagementRisk (extracurriculars student))
    (calculateDemographicRisk student).

Definition predictDropoutRisk (student : Student) : PredictionResult :=
  let attendanceRisk := calculateAttendanceRisk (attendance_percentage student) in
  let academicRisk := calculateAcademicRisk (cgpa student) (sgpa student) in
  let financialRisk :=
    calculateFinancialRisk (fee_default student) (scholarship student)
                           (family_income student) in
  let behavioralRisk := calculateBehavioralRisk (disciplinary_actions student) in
  let engagementRisk := calculateEngagementRisk (extracurriculars student) in
  let demographicRisk := calculateDemographicRisk student in
  let riskScore :=
    weightedScore attendanceRisk academicRisk financialRisk
                  behavioralRisk engagementRisk demographicRisk in
  let riskLevel := levelOf riskScore in
  {| risk_score := round2 riskScore;
     risk_level := riskLevel;
     prediction_factors :=
       {| attendance_impact := round2 attendanceRisk;
          academic_impact := round2 academicRisk;
          financial_impact := round2 financialRisk;
          behavioral_impact := round2 behavioralRisk;
          engagement_impact := round2 engagementRisk |} |}.

End Aggregator.

(** ** Reading a 2-decimal number *)

(** The number of hundredths in [y]: the integer closest to [100 * y].  A
    value [y] has 2-decimal precision when it is the number written
    [cents y / 100]. *)
Definition cents (y : float) : Z := JS.round_half_up (y * 100)%float.

Definition two_decimals (y : float) : Prop := y = (JS.of_Z (cents y) / 100)%float.

(** The sum of the five reported impacts under their weights, as the data
    model states the invariant of [prediction_factors]. *)
Definition weightedImpacts (f : PredictionFactors) : float :=
  (attendance_impact f * weights.attendance +
   academic_impact f * weights.academic +
   financial_impact f * weights.financial +
   behavioral_impact f * weights.behavioral +
   engagement_impact f * weights.engagement)%float.

(** The same sum in exact arithmetic, in units of 1/10000, with the
    demographic risk (to 2 decimals) added under its weight. *)
Definition weightedCents (f : PredictionFactors) (demographicRisk : float) : Z :=
  25 * cents (attendance_impact f) + 20 * cents (academic_impact f) +
  15 * cents (financial_impact f) + 15 * cents (behavioral_impact f) +
  10 * cents (engagement_impact f) + 15 * cents (round2 demographicRisk).

(** ** The values the calculators return and the scores they add up to *)

Section Reachable.

Open Scope float_scope.

Definition attendanceValues : list float := [0.1; 0.3; 0.5; 0.7; 0.9].
Definition academicValues : list float := [0.1; 0.2; 0.4; 0.6; 0.8].
Definition behavioralValues : list float := [0.1; 0.4; 0.6; 0.8].
Definition engagementValues : list float := [0.1; 0.2; 0.3; 0.5].

(** One income per branch of the income term, and one per flag. *)
Definition incomeCases : list optnum :=
  [Undefined; Null; Num 300000; Num 600000].

Definition financialValues : list float :=
  flat_map (fun fd =>
    flat_map (fun sc => map (calculateFinancialRisk fd sc) incomeCases)
             [true; false])
    [true; false].

Definition demoStudent (far hostel gap late : bool) : Student :=
  {| id := EmptyString; attendance_percentage := 0; cgpa := 0; sgpa := 0;
     fee_default := false; disciplinary_actions := 0; scholarship := false;
     extracurriculars := 0; semester := if late then 7 else 1;
     family_income := Undefined;
     distance_from_home := if far then Num 600 else Undefined;
     hostel_accommodation := hostel; previous_education_gap := gap |}.

Definition demographicValues : list float :=
  flat_map (fun far =>
    flat_map (fun hostel =>
      flat_map (fun gap =>
        map (fun late => calculateDemographicRisk (demoStudent far hostel gap late))
            [true; false])
        [true; false])
      [true; false])
    [true; false].

(** A running total of [predictDropoutRisk]'s sum: the floating-point
    partial sum, and the exact sum of the rounded risks in 1/10000. *)
Record Tally : Type := mkTally { scoreSoFar : float; centsSoFar : Z }.

Definition Tally_eqb (a b : Tally) : bool :=
  PrimFloat.Leibniz.eqb (scoreSoFar a) (scoreSoFar b)
  && Z.eqb (centsSoFar a) (centsSoFar b).

Definition dedup (l : list Tally) : list Tally :=
  fold_right (fun x r => if existsb (Tally_eqb x) r then r else x :: r) [] l.

Definition addTerm (w : float) (W : Z) (t : Tally) (r : float) : Tally :=
  mkTally (scoreSoFar t + r * w) (centsSoFar t + W * cents (round2 r)).

Definition extend (w : float) (W : Z) (vals : list float) (ts : list Tally)
  : list Tally :=
  dedup (flat_map (fun t => map (addTerm w W t) vals) ts).

Definition firstTerm (r : float) : Tally :=
  mkTally (r * weights.attendance) (25 * cents (round2 r)).

Definition tallies1 := dedup (map firstTerm attendanceValues).
Definition tallies2 := extend weights.academic 20 academicValues tallies1.
Definition tallies3 := extend weights.financial 15 financialValues tallies2.
Definition tallies4 := extend weights.behavioral 15 behavioralValues tallies3.
Definition tallies5 := extend weights.engagement 10 engagementValues tallies4.
Definition tallies6 := extend weights.demographics 15 demographicValues tallies5.

(** The tally of a student: the unrounded score with the exact weighted
    sum of the rounded risks. *)
Definition tallyOf (s : Student) : Tally :=
  mkTally (riskScoreOf s)
          (weightedCents (prediction_factors (predictDropoutRisk s))
                         (calculateDemographicRisk s)).

Definition is_high (l : RiskLevel) : bool :=
  match l with high => true | _ => false end.
Definition is_medium (l : RiskLevel) : bool :=
  match l with medium => true | _ => false end.
Definition is_low (l : RiskLevel) : bool :=
  match l with low => true | _ => false end.

(** What is checked of a rounded value [y]: it lies in [0,1] and is the
    2-decimal number [cents y / 100]. *)
Definition okImpact (r : float) : bool :=
  let y := round2 r in
  (0 <=? y) && (y <=? 1) && PrimFloat.Leibniz.eqb y (JS.of_Z (cents y) / 100).

(** What is checked of every final tally. *)
Definition okScore (t : Tally) : bool :=
  let u := scoreSoFar t in
  let y := round2 u in
  (0.07 <=? u) && (u <=? 0.81) && (0.07 <=? y) && (y <=? 0.81)
  && okImpact u
  && (Z.abs (centsSoFar t - 100 * cents y) <=? 50)%Z
  && negb (JS.strict_eq y 0) && negb (JS.strict_eq y 1)
  && implb (JS.ge u 0.7) (JS.ge u 0.4)
  && Bool.eqb (JS.ge u 0.7) (negb (JS.lt u 0.7))
  && Bool.eqb (JS.ge u 0.4) (negb (JS.lt u 0.4))
  && implb (is_high (levelOf u)) (JS.ge y 0.7)
  && implb (is_medium (levelOf u)) (JS.ge y 0.4 && (y <=? 0.7))
  && implb (is_low (levelOf u)) (y <=? 0.4)
  && implb (JS.gt y 0.7) (is_high (levelOf u))
  && implb (JS.gt y 0.4 && JS.lt y 0.7) (is_medium (levelOf u))
  && implb (JS.lt y 0.4) (is_low (levelOf u)).

End Reachable.

(** ** The attendance bands *)

(** [risk] is the value of the attendance step function at [a]: each band
    fixes the value, and [a] lies in one of the bands. *)
Definition attendanceStep (a risk : float) : Prop :=
  (  (JS.ge a 90 = true -> risk = 0.1)
  /\ (JS.ge a 80 = true -> JS.lt a 90 = true -> risk = 0.3)
  /\ (JS.ge a 70 = true -> JS.lt a 80 = true -> risk = 0.5)
  /\ (JS.ge a 60 = true -> JS.lt a 70 = true -> risk = 0.7)
  /\ (JS.lt a 60 = true -> risk = 0.9)
  /\ (JS.ge a 90 = true
      \/ (JS.ge a 80 = true /\ JS.lt a 90 = true)
      \/ (JS.ge a 70 = true /\ JS.lt a 80 = true)
      \/ (JS.ge a 60 = true /\ JS.lt a 70 = true)
      \/ JS.lt a 60 = true))%float.

(** ** Named students *)

Section Scenarios.

Open Scope float_scope.

(** Concrete scenario 2 of the testable properties. *)
Definition scenario2 : Student :=
  {| id := "s2"; attendance_percentage := 68.2; cgpa := 5.9; sgpa := 6.1;
     fee_default := true; disciplinary_actions := 2; scholarship := false;
     extracurriculars := 0; semester := 7;
     family_income := Undefined; distance_from_home := Undefined;
     hostel_accommodation := false; previous_education_gap := false |}.

(** Every calculator at its lowest value. *)
Definition safest : Student :=
  {| id := "min"; attendance_percentage := 95; cgpa := 9; sgpa := 9;
     fee_default := false; disciplinary_actions := 0; scholarship := true;
     extracurriculars := 3; semester := 1;
     family_income := Undefined; distance_from_home := Undefined;
     hostel_accommodation := false; previous_education_gap := false |}.

(** Every calculator at its highest value. *)
Definition riskiest : Student :=
  {| id := "max"; attendance_percentage := 40; cgpa := 4; sgpa := 4;
     fee_default := true; disciplinary_actions := 3; scholarship := false;
     extracurriculars := 0; semester := 7;
     family_income := Num 100000; distance_from_home := Num 600;
     hostel_accommodation := true; previous_education_gap := true |}.

(** A student whose weighted score is 0.395. *)
Definition borderline : Student :=
  {| id := "b"; attendance_percentage := 95; cgpa := 5.5; sgpa := 5.5;
     fee_default := true; disciplinary_actions := 3; scholarship := false;
     extracurriculars := 3; semester := 1;
     family_income := Undefined; distance_from_home := Undefined;
     hostel_accommodation := false; previous_education_gap := false |}.

End Scenarios.

(** ** The request handler of [predict-dropout-risk]

    The record store is reached through three queries; each call is kept in
    a trace with its outcome, so that what the handler did to the store can
    be read off its result. *)

(** A field of the request body, as [req.json()] delivers it: absent
    ([undefined]), [null], a boolean, a number, a string, or an array of
    identifiers. *)
Inductive jsval : Type :=
| VUndefined
| VNull
| VBool (b : bool)
| VNum (x : float)
| VStr (s : string)
| VArr (l : list string).

Module JsVal.

Definition truthy (v : jsval) : bool :=
  match v with
  | VUndefined | VNull => false
  | VBool b => b
  | VNum x => JS.truthy x
  | VStr s => negb (String.eqb s EmptyString)
  | VArr _ => true
  end.

(** [v.length > 0] for a truthy [v]: strings and arrays have a length;
    on a boolean or a number [v.length] is [undefined], and
    [undefined > 0] is false. *)
Definition length_positive (v : jsval) : bool :=
  match v with
  | VStr s => Nat.ltb 0 (String.length s)
  | VArr l => Nat.ltb 0 (List.length l)
  | _ => false
  end.

End JsVal.

(** The error object of a failed query; [message] may be missing. *)
Record StoreError : Type := mkStoreError { message : option string }.

(** The [{ data, error }] answer of a select. *)
Record QueryResult : Type := mkQueryResult {
  data : option (list Student);
  error : option StoreError
}.

(** One row of an upsert. *)
Record Update : Type := mkUpdate {
  update_id : string;
  update_risk_score : float;
  update_risk_level : RiskLevel;
  update_prediction_factors : PredictionFactors
}.

(** An entry of [predictions]. *)
Record Prediction : Type := mkPrediction {
  prediction_id : string;
  prediction : PredictionResult
}.

Inductive StoreCall : Type :=
| SelectUnscored                      (* .select('*').is('risk_score', null) *)
| SelectByIds (ids : jsval)           (* .select('*').in('id', studentIds) *)
| Upsert (updates : list Update).     (* .upsert(updates) *)

Record StoreEvent : Type := mkEvent { call : StoreCall; failed : bool }.

Inductive ResponseBody : Type :=
| NoBody
| ErrorBody (error_message : string)
| SummaryBody (summary_message : string) (processedCount totalCount : nat).

Record Response : Type := mkResponse { status : nat; body : ResponseBody }.

(** The body of the request: [req.json()] and the destructuring either
    throw (with the engine's message, if any) or yield the two fields. *)
Inductive RequestBody : Type :=
| Unreadable (thrown : option string)
| Fields (studentIds processNewStudents : jsval).

Record Request : Type := mkRequest { method : string; json : RequestBody }.

Definition batchSize : nat := 50.

(** [n] in decimal, as a template literal prints it. *)
Definition decimal (n : nat) : string :=
  DecimalString.NilEmpty.string_of_uint (Nat.to_uint n).

(** [error.message || 'Failed to process predictions'] *)
Definition errorMessage (thrown : option string) : string :=
  match thrown with
  | Some m => if String.eqb m EmptyString then "Failed to process predictions" else m
  | None => "Failed to process predictions"
  end.

(** [l.slice(i, j)] for [i <= j] *)
Definition slice {A : Type} (i j : nat) (l : list A) : list A :=
  firstn (j - i) (skipn i l).

Definition toUpdate (p : Prediction) : Update :=
  {| update_id := prediction_id p;
     update_risk_score := risk_score (prediction p);
     update_risk_level := risk_level (prediction p);
     update_prediction_factors := prediction_factors (prediction p) |}.

Section Handler.

(** The record store: its state and its three queries.  Creating the
    client touches neither. *)
Context {Store : Type}.
Variable select_unscored : Store -> Store * QueryResult.
Variable select_by_ids : jsval -> Store -> Store * QueryResult.
Variable upsert : list Update -> Store -> Store * option StoreError.

(** The store together with the trace of the calls made so far. *)
Record World : Type := mkWorld { store : Store; trace : list StoreEvent }.

Definition run_select (c : StoreCall) (q : Store -> Store * QueryResult)
  (w : World) : World * QueryResult :=
  let (st, r) := q (store w) in
  ({| store := st;
      trace := trace w ++ [{| call := c;
                              failed := match error r with
                                        | Some _ => true | None => false
                                        end |}] |}, r).

Definition run_upsert (updates : list Update) (w : World)
  : World * option StoreError :=
  let (st, e) := upsert updates (store w) in
  ({| store := st;
      trace := trace w ++ [{| call := Upsert updates;
                              failed := match e with
                                        | Some _ => true | None => false
                                        end |}] |}, e).

(** How the first phase of the handler ends. *)
Inductive Selection : Type :=
| Selected (students : list Student)
| Thrown (e : StoreError)
| NoneSpecified.

(** [if (error) throw error; students = data || []] *)
Definition studentsOf (r : QueryResult) : Selection :=
  match error r with
  | Some e => Thrown e
  | None => Selected (match data r with Some l => l | None => [] end)
  end.

Definition selectStudents (studentIds processNewStudents : jsval) (w : World)
  : World * Selection :=
  if JsVal.truthy processNewStudents then
    let (w', r) := run_select SelectUnscored select_unscored w in
    (w', studentsOf r)
  else if JsVal.truthy studentIds && JsVal.length_positive studentIds then
    let (w', r) := run_select (SelectByIds studentIds)
                              (select_by_ids studentIds) w in
    (w', studentsOf r)
  else (w, NoneSpecified).

(** The loop [for (let i = 0; i < predictions.length; i += batchSize)];
    [fuel] bounds the number of iterations. *)
Fixpoint persistBatches (fuel i : nat) (predictions : list Prediction)
  (w : World) (updatedCount : nat) : World * nat :=
  match fuel with
  | O => (w, updatedCount)
  | S fuel' =>
      if Nat.ltb i (List.length predictions) then
        let batch := slice i (i + batchSize) predictions in
        let updates := map toUpdate batch in
        let (w', e) := run_upsert updates w in
        let updatedCount' :=
          match e with
          | Some _ => updatedCount          (* Continue with other batches *)
          | None => updatedCount + List.length batch
          end in
        persistBatches fuel' (i + batchSize) predictions w' updatedCount'
      else (w, updatedCount)
  end.

(** The second phase: predict every student, persist in batches, report. *)
Definition predictAndPersist (students : list Student) (w : World)
  : Response * World :=
  let predictions :=
    map (fun student => {| prediction_id := id student;
                           prediction := predictDropoutRisk student |})
        students in
  let (w', updatedCount) :=
    persistBatches (List.length predictions) 0 predictions w 0 in
  ({| status := 200;
      body := SummaryBody
                ("Successfully processed " ++ decimal updatedCount ++ " students")
                updatedCount (List.length students) |}, w').

Definition serve (req : Request) (st : Store) : Response * World :=
  let w := {| store := st; trace := [] |} in
  if String.eqb (method req) "OPTIONS" then
    ({| status := 200; body := NoBody |}, w)
  else
    match json req with
    | Unreadable thrown =>
        ({| status := 500; body := ErrorBody (errorMessage thrown) |}, w)
    | Fields studentIds processNewStudents =>
        match selectStudents studentIds processNewStudents w with
        | (w', Selected students) => predictAndPersist students w'
        | (w', Thrown e) =>
            ({| status := 500; body := ErrorBody (errorMessage (message e)) |}, w')
        | (w', NoneSpecified) =>
            ({| status := 400;
                body := ErrorBody "No students specified for prediction" |}, w')
        end
    end.

(** The upsert calls of a trace, with their outcome. *)
Definition upsertsOf (t : list StoreEvent) : list (list Update * bool) :=
  flat_map (fun ev => match call ev with
                      | Upsert u => [(u, negb (failed ev))]
                      | _ => []
                      end) t.

Definition isSelectByIds (c : StoreCall) : bool :=
  match c with SelectByIds _ => true | _ => false end.

End Handler.

(** The number of records in the batches that were persisted. *)
Definition persistedRecords (batches : list (list Update * bool)) : nat :=
  list_sum (map (fun b : list Update * bool =>
                   if snd b then List.length (fst b) else 0) batches).

(** The updates computed for a population, in its order. *)
Definition updatesFor (students : list Student) : list Update :=
  map (fun student =>
         {| update_id := id student;
            update_risk_score := risk_score (predictDropoutRisk student);
            update_risk_level := risk_level (predictDropoutRisk student);
            update_prediction_factors :=
              prediction_factors (predictDropoutRisk student) |}) students.

(** The event a batch leaves in the trace. *)
Definition upsertEvent (b : list Update * bool) : StoreEvent :=
  {| call := Upsert (fst b); failed := negb (snd b) |}.

(** The answers of the store to the upserts of [batches], made one after
    the other from [st], each on the store the one before left behind: the
    store after the last of them and, for each, whether the store accepted
    it (answered without an error). *)
Fixpoint upsertAll {Store : Type}
  (upsert : list Update -> Store -> Store * option StoreError)
  (batches : list (list Update)) (st : Store) : Store * list bool :=
  match batches with
  | [] => (st, [])
  | updates :: rest =>
      let (st', e) := upsert updates st in
      let (st'', accepted) := upsertAll upsert rest st' in
      (st'', match e with Some _ => false | None => true end :: accepted)
  end.

(** Best-effort persistence of the updates of [students], as seen in the
    outcome [(response, w)] of a run whose selection ended in the world
    [selected]: the store calls made afterwards are one upsert per batch,
    in order, whatever the outcome of the earlier ones; the batches cut the
    updates into consecutive runs of [batchSize], the last one possibly
    shorter; every batch is sent to the store itself, on the store the
    batch before left behind, it counts as persisted exactly when the
    store accepted it, and the store of the outcome is the store after the
    last upsert; the response is the 200 summary, counting the population
    and the records of the batches that were persisted. *)
Definition BestEffort {Store : Type}
  (upsert : list Update -> Store -> Store * option StoreError)
  (students : list Student) (selected : @World Store)
  (outcome : Response * @World Store) : Prop :=
  exists batches : list (list Update * bool),
    trace (snd outcome) = trace selected ++ map upsertEvent batches
    /\ List.concat (map fst batches) = updatesFor students
    /\ Forall (fun b => 1 <= List.length (fst b) <= batchSize) batches
    /\ Forall (fun b => List.length (fst b) = batchSize) (removelast batches)
    /\ upsertAll upsert (map fst batches) (store selected)
       = (store (snd outcome), map snd batches)
    /\ fst outcome
       = {| status := 200;
            body := SummaryBody
                      ("Successfully processed "
                         ++ decimal (persistedRecords batches) ++ " students")
                      (persistedRecords batches) (List.length students) |}.

(** A scripted store, to run the handler on: it holds the unscored rows and
    the rows by identifier it answers with, and the outcomes of the
    upserts to come ([true] for a failing one; success once the script is
    used up). *)
Module Scripted.

Record Store : Type := mkStore {
  unscored : list Student;
  script : list bool
}.

Definition select_unscored (st : Store) : Store * QueryResult :=
  (st, {| data := Some (unscored st); error := None |}).

Definition mentions (ids : jsval) (i : string) : bool :=
  match ids with
  | VArr l => existsb (String.eqb i) l
  | _ => false
  end.

Definition select_by_ids (ids : jsval) (st : Store) : Store * QueryResult :=
  (st, {| data := Some (filter (fun s => mentions ids (id s)) (unscored st));
          error := None |}).

Definition upsert (updates : list Update) (st : Store)
  : Store * option StoreError :=
  match script st with
  | [] => (st, None)
  | fails :: rest =>
      ({| unscored := unscored st; script := rest |},
       if fails then Some {| message := Some "write failed"%string |} else None)
  end.

Definition serve (req : Request) (st : Store) : Response * @World Store :=
  serve select_unscored select_by_ids upsert req st.

(** [n] copies of [scenario2]. *)
Definition population (n : nat) : list Student := repeat scenario2 n.

Definition post (studentIds processNewStudents : jsval) : Request :=
  {| method := "POST"; json := Fields studentIds processNewStudents |}.

(** 120 unscored students, the first and the third upsert failing. *)
Definition flakyStore : Store :=
  {| unscored := population 120; script := [true; false; true] |}.

Definition twoStudents : Store :=
  {| unscored := population 2; script := [] |}.

End Scripted.

(** ** The upload normaliser: [parseCSVContent] of [Upload.tsx]

    The text of an upload, its lines and its cells are JavaScript strings:
    sequences of UTF-16 code units.  Field names, messages and file names,
    which the program only compares with ASCII literals, are kept as
    [string]s. *)

Definition jsstring : Type := list N.

Module JsString.

(** The string of an ASCII literal. *)
Definition of_string (s : string) : jsstring :=
  map N_of_ascii (list_ascii_of_string s).

(** [a === b] *)
Fixpoint eqb (a b : jsstring) : bool :=
  match a, b with
  | [], [] => true
  | x :: a', y :: b' => N.eqb x y && eqb a' b'
  | _, _ => false
  end.

(** [s.split(sep)] for a one-character separator: never empty, one piece
    more than there are separators. *)
Fixpoint split (sep : N) (s : jsstring) : list jsstring :=
  match s with
  | [] => [[]]
  | c :: rest =>
      if N.eqb c sep then [] :: split sep rest
      else match split sep rest with
           | piece :: pieces => (c :: piece) :: pieces
           | [] => [[c]]
           end
  end.

(** The white space and the line terminators of ECMAScript, which [trim]
    strips: tab, line feed, vertical tab, form feed, carriage return,
    space, no-break space, the other space separators of Unicode (U+1680,
    U+2000 to U+200A, U+202F, U+205F, U+3000), the line and paragraph
    separators, and the byte order mark. *)
Definition is_space (c : N) : bool :=
  ((N.leb 0x0009 c && N.leb c 0x000D)
   || N.eqb c 0x0020 || N.eqb c 0x00A0 || N.eqb c 0x1680
   || (N.leb 0x2000 c && N.leb c 0x200A)
   || N.eqb c 0x2028 || N.eqb c 0x2029 || N.eqb c 0x202F
   || N.eqb c 0x205F || N.eqb c 0x3000 || N.eqb c 0xFEFF)%N.

Fixpoint trimStart (s : jsstring) : jsstring :=
  match s with
  | c :: rest => if is_space c then trimStart rest else s
  | [] => []
  end.

Fixpoint trimEnd (s : jsstring) : jsstring :=
  match s with
  | c :: rest =>
      match trimEnd rest with
      | [] => if is_space c then [] else [c]
      | rest' => c :: rest'
      end
  | [] => []
  end.

Definition trim (s : jsstring) : jsstring := trimEnd (trimStart s).

(** Truthiness of a string. *)
Definition nonempty (s : jsstring) : bool :=
  match s with [] => false | _ :: _ => true end.

(** [list.includes(s)] *)
Definition includes (l : list jsstring) (s : jsstring) : bool :=
  existsb (eqb s) l.

End JsString.

(** Names and file names. *)
Module Str.

Definition lower (c : ascii) : ascii :=
  let n := nat_of_ascii c in
  if Nat.leb 65 n && Nat.leb n 90 then ascii_of_nat (n + 32) else c.

(** Lower case of the ASCII letters: what the [i] flag of a regular
    expression makes of a name that is matched with ASCII letters. *)
Fixpoint toLowerCase (s : string) : string :=
  match s with
  | String c rest => String (lower c) (toLowerCase rest)
  | EmptyString => EmptyString
  end.

(** [list.includes(s)] *)
Definition includes (l : list string) (s : string) : bool :=
  existsb (String.eqb s) l.

End Str.

(** A value stored in a payload. *)
Inductive FieldValue : Type :=
| FStr (s : jsstring)
| FNum (x : float)
| FBool (b : bool).

(** A payload: the fields assigned so far, in the order of their first
    assignment. *)
Definition Payload : Type := list (string * FieldValue).

Module Obj.

Fixpoint get (k : string) (o : Payload) : option FieldValue :=
  match o with
  | [] => None
  | (k', v) :: rest => if String.eqb k k' then Some v else get k rest
  end.

(** [o[k] = v] *)
Fixpoint set (k : string) (v : FieldValue) (o : Payload) : Payload :=
  match o with
  | [] => [(k, v)]
  | (k', v') :: rest =>
      if String.eqb k k' then (k, v) :: rest else (k', v') :: set k v rest
  end.

(** Truthiness of [o.k]; a field never assigned is [undefined]. *)
Definition truthy (k : string) (o : Payload) : bool :=
  match get k o with
  | None => false
  | Some (FStr s) => JsString.nonempty s
  | Some (FNum x) => JS.truthy x
  | Some (FBool b) => b
  end.

End Obj.

Inductive ParseOutcome : Type :=
| Students (students : list Payload)
| ParseError (thrown : string).

Section Ingestion.

Open Scope string_scope.

Local Abbreviation lit := JsString.of_string.

(** The own keys of [headerMap]. *)
Definition headerMap : list (string * string) :=
  [ ("name", "name"); ("email", "email");
    ("student_id", "student_id"); ("studentid", "student_id");
    ("department", "department"); ("semester", "semester");
    ("gender", "gender");
    ("attendance", "attendance_percentage");
    ("attendance_percentage", "attendance_percentage");
    ("cgpa", "cgpa"); ("sgpa", "sgpa");
    ("fee_default", "fee_default"); ("feedefault", "fee_default");
    ("disciplinary_actions", "disciplinary_actions");
    ("disciplinaryactions", "disciplinary_actions");
    ("scholarship", "scholarship"); ("extracurriculars", "extracurriculars");
    ("family_income", "family_income"); ("familyincome", "family_income");
    ("distance_from_home", "distance_from_home");
    ("distancefromhome", "distance_from_home");
    ("hostel_accommodation", "hostel_accommodation");
    ("hostelaccommodation", "hostel_accommodation");
    ("previous_education_gap", "previous_education_gap");
    ("previouseducationgap", "previous_education_gap") ].

(** What [headerMap], an object literal, inherits from [Object.prototype]:
    each property name with the key its value becomes in
    [student[mappedField] = value].  The value is a built-in function,
    printed as V8 prints it, or for [__proto__] the prototype object,
    printed as [[object Object]]; it is truthy and equals none of the
    field names the conversions test for. *)
Definition inherited : list (string * string) :=
  [ ("constructor", "function Object() { [native code] }");
    ("__defineGetter__", "function __defineGetter__() { [native code] }");
    ("__defineSetter__", "function __defineSetter__() { [native code] }");
    ("hasOwnProperty", "function hasOwnProperty() { [native code] }");
    ("__lookupGetter__", "function __lookupGetter__() { [native code] }");
    ("__lookupSetter__", "function __lookupSetter__() { [native code] }");
    ("isPrototypeOf", "function isPrototypeOf() { [native code] }");
    ("propertyIsEnumerable",
     "function propertyIsEnumerable() { [native code] }");
    ("toString", "function toString() { [native code] }");
    ("valueOf", "function valueOf() { [native code] }");
    ("__proto__", "[object Object]");
    ("toLocaleString", "function toLocaleString() { [native code] }") ].

Fixpoint lookupHeader (table : list (string * string)) (header : jsstring)
  : option string :=
  match table with
  | [] => None
  | (k, field) :: rest =>
      if JsString.eqb header (lit k) then Some field
      else lookupHeader rest header
  end.

(** [headerMap[header]]: an own key first, an inherited property next,
    [undefined] otherwise. *)
Definition mappedFieldOf (header : jsstring) : option string :=
  lookupHeader (headerMap ++ inherited) header.

(** ECMAScript's [parseInt], [parseFloat] and [String.prototype.toLowerCase]
    (the case mapping of Unicode) are taken as they are. *)
Variable parseInt : jsstring -> float.
Variable parseFloat : jsstring -> float.
Variable toLowerCase : jsstring -> jsstring.

(** [x || 0] *)
Definition orZero (x : float) : float := if JS.truthy x then x else 0%float.

(** The type conversions of a non-empty [value] assigned to [mappedField]. *)
Definition convert (mappedField : string) (value : jsstring) : FieldValue :=
  if Str.includes ["semester"; "disciplinary_actions"; "extracurriculars"]
                  mappedField
  then FNum (orZero (parseInt value))
  else if Str.includes ["attendance_percentage"; "cgpa"; "sgpa";
                        "family_income"; "distance_from_home"] mappedField
  then FNum (orZero (parseFloat value))
  else if Str.includes ["fee_default"; "scholarship"; "hostel_accommodation";
                        "previous_education_gap"] mappedField
  then FBool (JsString.eqb (toLowerCase value) (lit "true")
              || JsString.eqb (toLowerCase value) (lit "yes")
              || JsString.eqb value (lit "1"))
  else if String.eqb mappedField "gender"
  then let value := toLowerCase value in
       FStr (if JsString.includes [lit "male"; lit "female"; lit "other"] value
             then value else lit "other")
  else FStr value.

(** The body of [headers.forEach((header, index) => ...)]. *)
Definition assignColumn (values : list jsstring) (student : Payload)
  (column : nat * jsstring) : Payload :=
  let (index, header) := column in
  match mappedFieldOf header, nth_error values index with
  | Some mappedField, Some value =>
      if JsString.nonempty value
      then Obj.set mappedField (convert mappedField value) student
      else student
  | _, _ => student
  end.

(** The headers with their indices. *)
Definition columns (headers : list jsstring) : list (nat * jsstring) :=
  combine (seq 0 (List.length headers)) headers.

Definition mapRow (headers values : list jsstring) : Payload :=
  fold_left (assignColumn values) (columns headers) [].

(** [student.name && student.email && student.student_id && student.department] *)
Definition requiredFields : list string :=
  ["name"; "email"; "student_id"; "department"].

Definition hasRequired (student : Payload) : bool :=
  Obj.truthy "name" student && Obj.truthy "email" student
  && Obj.truthy "student_id" student && Obj.truthy "department" student.

Definition comma : N := 44%N.
Definition LF : N := 10%N.
Definition CR : N := 13%N.

(** [line.split(',')] *)
Definition cellsOf (line : jsstring) : list jsstring :=
  JsString.split comma line.

(** [lines[i].split(',').map(v => v.trim())] *)
Definition valuesOf (line : jsstring) : list jsstring :=
  map JsString.trim (cellsOf line).

(** The loop over [lines[1..]]. *)
Fixpoint parseRows (headers : list jsstring) (lines : list jsstring)
  (students : list Payload) : list Payload :=
  match lines with
  | [] => students
  | line :: rest =>
      let values := valuesOf line in
      if Nat.ltb (List.length values) (List.length headers)
      then parseRows headers rest students                    (* continue *)
      else
        let student := mapRow headers values in
        if hasRequired student
        then parseRows headers rest (students ++ [student])
        else parseRows headers rest students
  end.

(** [content.split('\n').filter(line => line.trim())] *)
Definition linesOf (content : jsstring) : list jsstring :=
  filter (fun line => JsString.nonempty (JsString.trim line))
         (JsString.split LF content).

(** [lines[0].split(',').map(h => h.trim().toLowerCase())] *)
Definition headersOf (line : jsstring) : list jsstring :=
  map (fun h => toLowerCase (JsString.trim h)) (cellsOf line).

Definition parseCSVContent (content : jsstring) : ParseOutcome :=
  let lines := linesOf content in
  if Nat.ltb (List.length lines) 2
  then ParseError "File must contain header row and at least one data row"
  else Students (parseRows (headersOf (hd [] lines)) (tl lines) []).

(** A row is kept when it is not shorter than the header row and has the
    four required fields. *)
Definition keepsRow (headers : list jsstring) (line : jsstring) : bool :=
  negb (Nat.ltb (List.length (valuesOf line)) (List.length headers))
  && hasRequired (mapRow headers (valuesOf line)).

End Ingestion.

(** A required field is empty after header mapping when every column whose
    header maps to it holds the empty string in the row. *)
Definition emptyAfterMapping (headers values : list jsstring) (field : string)
  : Prop :=
  forall (index : nat) (header value : jsstring),
    nth_error headers index = Some header ->
    mappedFieldOf header = Some field ->
    nth_error values index = Some value ->
    value = [].

(** A cell that holds white space only. *)
Definition blank (cell : jsstring) : bool := forallb JsString.is_space cell.

(** The number of commas of a line. *)
Definition commas (line : jsstring) : nat := count_occ N.eq_dec line comma.

(** Column [(index, header)] gives [field] a non-empty value. *)
Definition fills (values : list jsstring) (field : string)
  (column : nat * jsstring) : bool :=
  match mappedFieldOf (snd column), nth_error values (fst column) with
  | Some mappedField, Some value =>
      String.eqb field mappedField && JsString.nonempty value
  | _, _ => false
  end.

(** A reader of unsigned decimal digits, standing for [parseInt] and
    [parseFloat] on the runs below. *)
Module Digits.

Fixpoint read (acc : Z) (seen : bool) (s : jsstring) : option Z :=
  match s with
  | c :: rest =>
      if (N.leb 48 c && N.leb c 57)%N
      then read (10 * acc + Z.of_N (c - 48)%N)%Z true rest
      else if seen then Some acc else None
  | [] => if seen then Some acc else None
  end.

Definition parse (s : jsstring) : float :=
  match read 0 false (JsString.trimStart s) with
  | Some n => JS.of_Z n
  | None => nan
  end.

End Digits.

(** Lower case of the ASCII letters, standing for [toLowerCase] on the runs
    below, whose text is ASCII. *)
Module Letters.

Definition toLowerCase (s : jsstring) : jsstring :=
  map (fun c => if (N.leb 65 c && N.leb c 90)%N then (c + 32)%N else c) s.

End Letters.

Section Uploads.

Open Scope string_scope.

Definition newline : string := String "010"%char EmptyString.

(** A header row and four data rows: a complete row, a row with an empty
    name, a row with too few fields, and another complete row. *)
Definition sampleUpload : jsstring :=
  JsString.of_string
    ("Name, Email ,Student_ID,Department,Semester" ++ newline
     ++ "Asha,asha@example.org,S1,Physics,3" ++ newline
     ++ ",ben@example.org,S2,Physics,5" ++ newline
     ++ "Cy,cy@example.org,S3" ++ newline
     ++ newline
     ++ "Dee,dee@example.org,S4,Maths,x").

(** The same upload with a name of no-break spaces in its first data row
    and a column headed [constructor]. *)
Definition oddUpload : jsstring :=
  (JsString.of_string
     ("name,email,student_id,department,constructor" ++ newline)%string
   ++ [0x00A0; 0x00A0]%N
   ++ JsString.of_string
        (",asha@example.org,S1,Physics,3" ++ newline
         ++ "Dee,dee@example.org,S4,Maths,x")%string)%list.

End Uploads.

(** ** The other step functions, and the scores of steady attenders *)

(** [risk] is the value of the academic step function at the GPA average
    [avg]. *)
Definition academicStep (avg risk : float) : Prop :=
  (  (JS.ge avg 8 = true -> risk = 0.1)
  /\ (JS.ge avg 7 = true -> JS.lt avg 8 = true -> risk = 0.2)
  /\ (JS.ge avg 6 = true -> JS.lt avg 7 = true -> risk = 0.4)
  /\ (JS.ge avg 5 = true -> JS.lt avg 6 = true -> risk = 0.6)
  /\ (JS.lt avg 5 = true -> risk = 0.8)
  /\ (JS.ge avg 8 = true
      \/ (JS.ge avg 7 = true /\ JS.lt avg 8 = true)
      \/ (JS.ge avg 6 = true /\ JS.lt avg 7 = true)
      \/ (JS.ge avg 5 = true /\ JS.lt avg 6 = true)
      \/ JS.lt avg 5 = true))%float.

(** [risk] is the value of the engagement step function at the count [n]. *)
Definition engagementStep (n risk : float) : Prop :=
  (  (JS.ge n 3 = true -> risk = 0.1)
  /\ (JS.ge n 2 = true -> JS.lt n 3 = true -> risk = 0.2)
  /\ (JS.ge n 1 = true -> JS.lt n 2 = true -> risk = 0.3)
  /\ (JS.lt n 1 = true -> risk = 0.5)
  /\ (JS.ge n 3 = true
      \/ (JS.ge n 2 = true /\ JS.lt n 3 = true)
      \/ (JS.ge n 1 = true /\ JS.lt n 2 = true)
      \/ JS.lt n 1 = true))%float.

(** The attendance risks of an attendance of 80 or more, and the final
    tallies that start from them. *)
Definition steadyAttendanceValues : list float := [0.1; 0.3]%float.

Definition steady1 := dedup (map firstTerm steadyAttendanceValues).
Definition steady2 := extend weights.academic 20 academicValues steady1.
Definition steady3 := extend weights.financial 15 financialValues steady2.
Definition steady4 := extend weights.behavioral 15 behavioralValues steady3.
Definition steady5 := extend weights.engagement 10 engagementValues steady4.
Definition steady6 := extend weights.demographics 15 demographicValues steady5.

(** What is checked of an additive risk: it lies in [0,1]. *)
Definition inUnit (r : float) : bool := ((0 <=? r) && (r <=? 1))%float.

(** What is checked of the final tally of a steady attender. *)
Definition belowHigh (t : Tally) : bool :=
  JS.lt (scoreSoFar t) 0.7%float && negb (is_high (levelOf (scoreSoFar t))).

(** ** Reading a trace *)

Definition isSelect (c : StoreCall) : bool :=
  match c with SelectUnscored | SelectByIds _ => true | Upsert _ => false end.

(** The select an accepted request makes. *)
Definition selectOf (studentIds processNewStudents : jsval) : StoreCall :=
  if JsVal.truthy processNewStudents then SelectUnscored
  else SelectByIds studentIds.



(** ** Reading a payload *)

(** Column [index] of the row maps to [field] and holds the non-empty
    [value]. *)
Definition filledAt (headers values : list jsstring) (field : string)
  (index : nat) (value : jsstring) : Prop :=
  exists header : jsstring,
    nth_error headers index = Some header
    /\ mappedFieldOf header = Some field
    /\ nth_error values index = Some value
    /\ value <> [].

(** The fields a payload can hold. *)
Definition integerFields : list string :=
  ["semester"; "disciplinary_actions"; "extracurriculars"]%string.
Definition decimalFields : list string :=
  ["attendance_percentage"; "cgpa"; "sgpa"; "family_income";
   "distance_from_home"]%string.
Definition flagFields : list string :=
  ["fee_default"; "scholarship"; "hostel_accommodation";
   "previous_education_gap"]%string.
Definition genders : list jsstring :=
  map JsString.of_string ["male"; "female"; "other"]%string.

(** The value [v] fits the column [field]: a number that is not NaN in a
    numeric column, a boolean in a flag column, one of the three genders in
    [gender], a non-empty string elsewhere. *)
Definition fits (field : string) (v : FieldValue) : bool :=
  match v with
  | FNum x =>
      (Str.includes integerFields field || Str.includes decimalFields field)
      && negb (is_nan x)
  | FBool _ =>
      negb (Str.includes integerFields field || Str.includes decimalFields field)
      && Str.includes flagFields field
  | FStr s =>
      negb (Str.includes integerFields field || Str.includes decimalFields field
            || Str.includes flagFields field)
      && JsString.nonempty s
      && (negb (String.eqb field "gender") || JsString.includes genders s)
  end.

(** ** [handleFileUpload] of [Upload.tsx]

    The page state is the last [UploadStatus] set; every status set, every
    toast and every call to the store client is kept in order. *)

Module Upload.

Record File : Type := mkFile {
  type : string;
  name : string;
  (** what the file reader yields: the text, or nothing when it fails *)
  text : option jsstring
}.

Inductive Stage : Type := idle | uploading | processing | success | error.

Record UploadStatus : Type := mkStatus {
  status : Stage;
  message : string;
  progress : float;
  processedCount : option nat;
  totalCount : option nat
}.

Record Toast : Type := mkToast {
  title : string;
  description : string;
  destructive : bool
}.

Inductive Call : Type :=
| Insert (batch : list Payload)      (* from('students').insert(batch) *)
| InvokePrediction.                  (* invoke with { processNewStudents: true } *)

Record Event : Type := mkEvent { call : Call; failed : bool }.

Definition validTypes : list string :=
  [ "text/csv"; "application/vnd.ms-excel";
    "application/vnd.openxmlformats-officedocument.spreadsheetml.sheet" ]%string.

(** [s] ends with [suffix]. *)
Fixpoint endsWith (suffix s : string) : bool :=
  String.eqb s suffix
  || match s with
     | String _ rest => endsWith suffix rest
     | EmptyString => false
     end.

(** [name.match(/\.(csv|xlsx|xls)$/i)] *)
Definition hasSheetExtension (name : string) : bool :=
  let lowered := Str.toLowerCase name in
  endsWith ".csv" lowered || endsWith ".xlsx" lowered || endsWith ".xls" lowered.

Definition accepted (file : File) : bool :=
  Str.includes validTypes (type file) || hasSheetExtension (name file).

Definition number (n : nat) : float := JS.of_Z (Z.of_nat n).

(** The statuses with constant text. *)
Definition errorStatus (shown : string) : UploadStatus :=
  {| status := error; message := shown; progress := 0;
     processedCount := None; totalCount := None |}.

Definition started : UploadStatus :=
  {| status := uploading; message := "Uploading file..."; progress := 20;
     processedCount := None; totalCount := None |}.

Definition parsing : UploadStatus :=
  {| status := processing; message := "Processing student data...";
     progress := 40; processedCount := None; totalCount := None |}.

Definition inProgress (s : UploadStatus) : Prop :=
  status s = uploading \/ status s = processing.

Section Page.

Variable parseInt : jsstring -> float.
Variable parseFloat : jsstring -> float.
Variable toLowerCase : jsstring -> jsstring.

(** The store client: inserting a batch, and invoking the prediction
    function; each answers with an error or none. *)
Context {Store : Type}.
Variable insert : list Payload -> Store -> Store * option StoreError.
Variable invoke : Store -> Store * option StoreError.

Record Page : Type := mkPage {
  store : Store;
  calls : list Event;
  statuses : list UploadStatus;
  toasts : list Toast
}.

Definition setUploadStatus (s : UploadStatus) (p : Page) : Page :=
  {| store := store p; calls := calls p;
     statuses := statuses p ++ [s]; toasts := toasts p |}.

Definition toast (t : Toast) (p : Page) : Page :=
  {| store := store p; calls := calls p;
     statuses := statuses p; toasts := toasts p ++ [t] |}.

Definition run (c : Call) (q : Store -> Store * option StoreError) (p : Page)
  : Page :=
  let (st, e) := q (store p) in
  {| store := st;
     calls := calls p ++ [{| call := c;
                             failed := match e with
                                       | Some _ => true | None => false
                                       end |}];
     statuses := statuses p; toasts := toasts p |}.

(** The [catch] block, for an error thrown with [thrown] as its message. *)
Definition failWith (thrown : string) (p : Page) : Page :=
  let shown :=
    if String.eqb thrown EmptyString
    then "Failed to upload and process file"%string else thrown in
  toast {| title := "Upload Failed"; description := shown; destructive := true |}
        (setUploadStatus (errorStatus shown) p).

(** The loop over the batches of [students]; [fuel] bounds its iterations.
    The count grows by the size of every batch, also of one whose insert
    failed. *)
Fixpoint insertBatches (fuel i : nat) (students : list Payload) (p : Page)
  (processed : nat) : Page * nat :=
  match fuel with
  | O => (p, processed)
  | S fuel' =>
      if Nat.ltb i (List.length students) then
        let batch := slice i (i + batchSize) students in
        let p := run (Insert batch) (insert batch) p in
        let processed := processed + List.length batch in
        let p :=
          setUploadStatus
            {| status := processing;
               message := "Processed " ++ decimal processed ++ " of "
                          ++ decimal (List.length students) ++ " records...";
               progress := (60 + (number processed / number (List.length students))
                                 * 30)%float;
               processedCount := Some processed;
               totalCount := Some (List.length students) |} p in
        insertBatches fuel' (i + batchSize) students p processed
      else (p, processed)
  end.

(** What follows a successful parse with at least one record. *)
Definition uploadStudents (students : list Payload) (p : Page) : Page :=
  let total := List.length students in
  let p :=
    setUploadStatus
      {| status := processing;
         message := "Processing " ++ decimal total ++ " student records...";
         progress := 60; processedCount := None; totalCount := Some total |} p in
  let (p, processed) := insertBatches total 0 students p 0 in
  let p :=
    setUploadStatus
      {| status := processing; message := "Running risk prediction analysis...";
         progress := 90; processedCount := Some processed;
         totalCount := Some total |} p in
  let p := run InvokePrediction invoke p in
  let p :=
    setUploadStatus
      {| status := success;
         message := "Successfully uploaded and processed " ++ decimal processed
                    ++ " student records!";
         progress := 100; processedCount := Some processed;
         totalCount := Some total |} p in
  toast {| title := "Upload Successful";
           description := decimal processed
                          ++ " student records have been uploaded and analyzed";
           destructive := false |} p.

Definition handleFileUpload (file : option File) (st : Store) : Page :=
  let p := {| store := st; calls := []; statuses := []; toasts := [] |} in
  match file with
  | None => p
  | Some file =>
      if negb (Str.includes validTypes (type file))
         && negb (hasSheetExtension (name file))
      then
        setUploadStatus
          (errorStatus "Please upload a valid CSV or Excel file (.csv, .xlsx, .xls)")
          p
      else
        let p :=
          setUploadStatus started p in
        match text file with
        | None => failWith "Failed to read file" p
        | Some fileContent =>
            let p :=
              setUploadStatus parsing p in
            match parseCSVContent parseInt parseFloat toLowerCase fileContent with
            | ParseError thrown => failWith thrown p
            | Students [] =>
                failWith "No valid student records found in the file" p
            | Students students => uploadStudents students p
            end
        end
  end.

End Page.


(** A scripted client: the outcomes of the inserts to come ([true] for a
    failing one; success once used up) and whether the invocation fails. *)
Record Script : Type := mkScript { inserts : list bool; predictionFails : bool }.

Definition scriptedInsert (batch : list Payload) (s : Script)
  : Script * option StoreError :=
  match inserts s with
  | [] => (s, None)
  | fails :: rest =>
      ({| inserts := rest; predictionFails := predictionFails s |},
       if fails then Some (mkStoreError (Some "insert failed"%string)) else None)
  end.

Definition scriptedInvoke (s : Script) : Script * option StoreError :=
  (s, if predictionFails s
      then Some (mkStoreError (Some "no function"%string)) else None).

End Upload.


Definition unreadableFile : Upload.File :=
  {| Upload.type := "text/csv"; Upload.name := "students"; Upload.text := None |}.

Definition failingClient : Upload.Script :=
  {| Upload.inserts := [true]; Upload.predictionFails := true |}.

(** ** The counters of the reports page and of the dashboard *)

Module Reports.

(** What [getStatistics] reads of a student row; [risk_level] is [null]
    until the student is scored. *)
Record Row : Type := mkRow {
  risk_level : option RiskLevel;
  attendance_percentage : float;
  cgpa : float
}.

Record Statistics : Type := mkStatistics {
  total : nat;
  highRisk : nat;
  mediumRisk : nat;
  lowRisk : nat;
  unanalyzed : nat;
  averageAttendance : float;
  averageCGPA : float
}.

Definition hasLevel (l : RiskLevel) (s : Row) : bool :=
  match risk_level s, l with
  | Some low, low | Some medium, medium | Some high, high => true
  | _, _ => false
  end.

(** [!s.risk_level] *)
Definition noLevel (s : Row) : bool :=
  match risk_level s with None => true | Some _ => false end.

Definition number (n : nat) : float := JS.of_Z (Z.of_nat n).

Definition getStatistics (filteredStudents : list Row) : Statistics :=
  let total := List.length filteredStudents in
  {| total := total;
     highRisk := List.length (filter (hasLevel high) filteredStudents);
     mediumRisk := List.length (filter (hasLevel medium) filteredStudents);
     lowRisk := List.length (filter (hasLevel low) filteredStudents);
     unanalyzed := List.length (filter noLevel filteredStudents);
     averageAttendance :=
       if Nat.ltb 0 total
       then JS.Math_round
              (fold_left (fun sum s => sum + attendance_percentage s)
                         filteredStudents 0 / number total)%float
       else 0%float;
     averageCGPA :=
       if Nat.ltb 0 total
       then (JS.Math_round
               ((fold_left (fun sum s => sum + cgpa s) filteredStudents 0
                 / number total) * 100) / 100)%float
       else 0%float |}.

End Reports.

Module Dashboard.

Record RiskCounts : Type := mkCounts {
  highRisk : nat;
  mediumRisk : nat;
  lowRisk : nat
}.

(** The reducer of [riskData?.reduce(...)], over the [risk_level] of each
    row. *)
Definition count (acc : RiskCounts) (risk_level : option RiskLevel) : RiskCounts :=
  match risk_level with
  | Some high => {| highRisk := S (highRisk acc); mediumRisk := mediumRisk acc;
                    lowRisk := lowRisk acc |}
  | Some medium => {| highRisk := highRisk acc; mediumRisk := S (mediumRisk acc);
                      lowRisk := lowRisk acc |}
  | Some low => {| highRisk := highRisk acc; mediumRisk := mediumRisk acc;
                   lowRisk := S (lowRisk acc) |}
  | None => acc
  end.

(** [riskData?.reduce(...) || { highRisk: 0, mediumRisk: 0, lowRisk: 0 }] *)
Definition riskCounts (riskData : option (list (option RiskLevel))) : RiskCounts :=
  match riskData with
  | Some rows =>
      fold_left count rows {| highRisk := 0; mediumRisk := 0; lowRisk := 0 |}
  | None => {| highRisk := 0; mediumRisk := 0; lowRisk := 0 |}
  end.

End Dashboard.

(** ** Line endings *)

(** [content] with every line feed preceded by a carriage return. *)
Fixpoint crlf (content : jsstring) : jsstring :=
  match content with
  | [] => []
  | c :: rest =>
      if N.eqb c LF then CR :: LF :: crlf rest
      else c :: crlf rest
  end.

(** [b] is [a], or [a] followed by a carriage return. *)
Definition sameLine (a b : jsstring) : Prop :=
  b = a \/ b = a ++ [CR].

(** The pieces with a character appended to the last one. *)
Fixpoint snocLast (c : N) (pieces : list jsstring) : list jsstring :=
  match pieces with
  | [] => []
  | [piece] => [piece ++ [c]]
  | piece :: rest => piece :: snocLast c rest
  end.

(** The pieces with a carriage return appended to all but the last one. *)
Fixpoint returned (pieces : list jsstring) : list jsstring :=
  match pieces with
  | [] => []
  | [piece] => [piece]
  | piece :: rest => (piece ++ [CR]) :: returned rest
  end.

(** * Theorems *)

(** ** Order facts about binary64 comparisons *)

Module FloatOrder.

Local Ltac cmp_cases :=
  repeat match goal with
  | |- context [Z.compare ?a ?b] => destruct (Z.compare_spec a b)
  | H : context [Z.compare ?a ?b] |- _ => destruct (Z.compare_spec a b)
  | |- context [Pos.compare_cont Eq ?a ?b] =>
      change (Pos.compare_cont Eq a b) with (Pos.compare a b);
      destruct (Pos.compare_spec a b)
  | H : context [Pos.compare_cont Eq ?a ?b] |- _ =>
      change (Pos.compare_cont Eq a b) with (Pos.compare a b) in H;
      destruct (Pos.compare_spec a b)
  end.

Lemma SFleb_trans (x y z : spec_float) :
  SFleb x y = true -> SFleb y z = true -> SFleb x z = true.
Proof.
  unfold SFleb.
  destruct x as [sx|sx| |sx mx ex], y as [sy|sy| |sy my ey],
           z as [sz|sz| |sz mz ez];
    simpl; try discriminate; try reflexivity;
    try destruct sx; try destruct sy; try destruct sz;
    simpl; try discriminate; try reflexivity;
    intros H1 H2; cmp_cases; subst;
    try discriminate; try reflexivity; try lia.
Qed.

Lemma SFltb_SFleb_false (x y : spec_float) :
  SFltb x y = true -> SFleb y x = false.
Proof.
  unfold SFltb, SFleb.
  destruct x as [sx|sx| |sx mx ex], y as [sy|sy| |sy my ey];
    simpl; try discriminate; try reflexivity;
    try destruct sx; try destruct sy;
    simpl; try discriminate; try reflexivity;
    intros H1; cmp_cases; subst;
    try discriminate; try reflexivity; try lia.
Qed.

Lemma SFleb_false_SFltb (x y : spec_float) :
  SFleb x x = true -> SFleb y y = true ->
  SFleb y x = false -> SFltb x y = true.
Proof.
  unfold SFltb, SFleb.
  destruct x as [sx|sx| |sx mx ex], y as [sy|sy| |sy my ey];
    simpl; try discriminate; try reflexivity;
    try destruct sx; try destruct sy;
    simpl; try discriminate; try reflexivity;
    intros _ _ H1; cmp_cases; subst;
    try discriminate; try reflexivity; try lia.
Qed.

Open Scope float_scope.

Lemma leb_trans (x y z : float) :
  (x <=? y) = true -> (y <=? z) = true -> (x <=? z) = true.
Proof. rewrite !leb_spec. apply SFleb_trans. Qed.

Lemma ltb_leb_false (x y : float) :
  (x <? y) = true -> (y <=? x) = false.
Proof. rewrite ltb_spec, leb_spec. apply SFltb_SFleb_false. Qed.

Lemma leb_false_ltb (x y : float) :
  (x <=? x) = true -> (y <=? y) = true ->
  (y <=? x) = false -> (x <? y) = true.
Proof. rewrite !leb_spec, ltb_spec. apply SFleb_false_SFltb. Qed.

(** Being comparable with something rules NaN out. *)
Lemma leb_refl_l (x y : float) : (x <=? y) = true -> (x <=? x) = true.
Proof.
  rewrite !leb_spec. unfold SFleb.
  destruct (Prim2SF x) as [s|s| |s m e], (Prim2SF y) as [s'|s'| |s' m' e'];
    simpl; try discriminate; try reflexivity;
    intros _; try destruct s; simpl; try reflexivity;
    rewrite Z.compare_refl;
    change (Pos.compare_cont Eq m m) with (Pos.compare m m);
    rewrite Pos.compare_refl; reflexivity.
Qed.

Lemma leb_refl_r (x y : float) : (x <=? y) = true -> (y <=? y) = true.
Proof.
  rewrite !leb_spec. unfold SFleb.
  destruct (Prim2SF x) as [s|s| |s m e], (Prim2SF y) as [s'|s'| |s' m' e'];
    simpl; try discriminate; try reflexivity;
    intros _; try destruct s'; simpl; try reflexivity;
    try (destruct s; discriminate);
    rewrite Z.compare_refl;
    change (Pos.compare_cont Eq m' m') with (Pos.compare m' m');
    rewrite Pos.compare_refl; reflexivity.
Qed.

End FloatOrder.

(** ** The calculators return values of their tables *)

Section CalculatorValues.

Open Scope float_scope.

(** Closes [In x l] for a closed [x] by evaluation. *)
Local Ltac in_list :=
  vm_compute; repeat (first [ left; reflexivity | right ]).

Lemma calculateAttendanceRisk_values (a : float) :
  In (calculateAttendanceRisk a) attendanceValues.
Proof.
  unfold calculateAttendanceRisk.
  repeat match goal with |- context [JS.ge ?x ?y] => destruct (JS.ge x y) end;
    in_list.
Qed.

Lemma calculateAcademicRisk_values (c s : float) :
  In (calculateAcademicRisk c s) academicValues.
Proof.
  unfold calculateAcademicRisk; cbv zeta.
  repeat match goal with |- context [JS.ge ?x ?y] => destruct (JS.ge x y) end;
    in_list.
Qed.

Lemma calculateBehavioralRisk_values (d : float) :
  In (calculateBehavioralRisk d) behavioralValues.
Proof.
  unfold calculateBehavioralRisk.
  repeat match goal with
         | |- context [JS.strict_eq ?x ?y] => destruct (JS.strict_eq x y)
         end; in_list.
Qed.

Lemma calculateEngagementRisk_values (e : float) :
  In (calculateEngagementRisk e) engagementValues.
Proof.
  unfold calculateEngagementRisk.
  repeat match goal with |- context [JS.ge ?x ?y] => destruct (JS.ge x y) end;
    in_list.
Qed.

Lemma calculateFinancialRisk_values (fd sc : bool) (fi : optnum) :
  In (calculateFinancialRisk fd sc fi) financialValues.
Proof.
  unfold calculateFinancialRisk, incomeTerm; cbv zeta.
  destruct fi as [ | |x]; cbn [OptNum.not_undefined OptNum.to_number];
    destruct fd, sc; cbn [negb];
    repeat match goal with |- context [JS.lt ?a ?b] => destruct (JS.lt a b) end;
    in_list.
Qed.

Lemma calculateDemographicRisk_values (s : Student) :
  In (calculateDemographicRisk s) demographicValues.
Proof.
  unfold calculateDemographicRisk, distanceTerm; cbv zeta.
  destruct (OptNum.truthy (distance_from_home s)
            && JS.gt (OptNum.to_number (distance_from_home s)) 500),
    (hostel_accommodation s), (previous_education_gap s),
    (JS.gt (semester s) 6); in_list.
Qed.

End CalculatorValues.

(** ** Every student's score is one of the final tallies *)

Section Tallies.

Lemma Tally_eqb_eq (a b : Tally) : Tally_eqb a b = true -> a = b.
Proof.
  destruct a as [fa za], b as [fb zb]; unfold Tally_eqb; cbn.
  intros H. apply andb_prop in H as [Hf Hz].
  apply FloatAxioms.Leibniz.eqb_spec in Hf. apply Z.eqb_eq in Hz.
  now subst.
Qed.

Lemma dedup_cons (y : Tally) (l : list Tally) :
  dedup (y :: l)
  = if existsb (Tally_eqb y) (dedup l) then dedup l else y :: dedup l.
Proof. reflexivity. Qed.

Lemma dedup_In (x : Tally) (l : list Tally) : In x l -> In x (dedup l).
Proof.
  induction l as [|y l IH]; [easy|].
  rewrite dedup_cons. intros [Hy|Hx].
  - subst y. destruct (existsb (Tally_eqb x) (dedup l)) eqn:E.
    + apply existsb_exists in E as (z & Hz & Heq).
      apply Tally_eqb_eq in Heq. now subst.
    + now left.
  - destruct (existsb (Tally_eqb y) (dedup l)); [|right]; auto.
Qed.

Lemma extend_In w W vals ts t r :
  In t ts -> In r vals -> In (addTerm w W t r) (extend w W vals ts).
Proof.
  intros Ht Hr. apply dedup_In, in_flat_map.
  exists t. split; [assumption|]. now apply in_map.
Qed.

Lemma tallyOf_reachable (s : Student) : In (tallyOf s) tallies6.
Proof.
  unfold tallyOf, riskScoreOf, weightedScore, weightedCents, predictDropoutRisk;
    cbn [prediction_factors attendance_impact academic_impact financial_impact
         behavioral_impact engagement_impact].
  pose proof (calculateAttendanceRisk_values (attendance_percentage s)) as H1.
  pose proof (calculateAcademicRisk_values (cgpa s) (sgpa s)) as H2.
  pose proof (calculateFinancialRisk_values (fee_default s) (scholarship s)
                (family_income s)) as H3.
  pose proof (calculateBehavioralRisk_values (disciplinary_actions s)) as H4.
  pose proof (calculateEngagementRisk_values (extracurriculars s)) as H5.
  pose proof (calculateDemographicRisk_values s) as H6.
  set (r1 := calculateAttendanceRisk _) in *.
  set (r2 := calculateAcademicRisk _ _) in *.
  set (r3 := calculateFinancialRisk _ _ _) in *.
  set (r4 := calculateBehavioralRisk _) in *.
  set (r5 := calculateEngagementRisk _) in *.
  set (r6 := calculateDemographicRisk _) in *.
  assert (T1 : In (firstTerm r1) tallies1) by (apply dedup_In; now apply in_map).
  pose proof (extend_In weights.academic 20 _ _ _ _ T1 H2) as T2.
  pose proof (extend_In weights.financial 15 _ _ _ _ T2 H3) as T3.
  pose proof (extend_In weights.behavioral 15 _ _ _ _ T3 H4) as T4.
  pose proof (extend_In weights.engagement 10 _ _ _ _ T4 H5) as T5.
  pose proof (extend_In weights.demographics 15 _ _ _ _ T5 H6) as T6.
  exact T6.
Qed.

(** The one evaluation of the final tallies. *)
Lemma tallies6_ok : forallb okScore tallies6 = true.
Proof. vm_compute. reflexivity. Qed.

Lemma okScore_student (s : Student) : okScore (tallyOf s) = true.
Proof.
  pose proof tallies6_ok as H. rewrite forallb_forall in H.
  apply H, tallyOf_reachable.
Qed.

Lemma attendanceValues_ok : forallb okImpact attendanceValues = true.
Proof. vm_compute. reflexivity. Qed.
Lemma academicValues_ok : forallb okImpact academicValues = true.
Proof. vm_compute. reflexivity. Qed.
Lemma financialValues_ok : forallb okImpact financialValues = true.
Proof. vm_compute. reflexivity. Qed.
Lemma behavioralValues_ok : forallb okImpact behavioralValues = true.
Proof. vm_compute. reflexivity. Qed.
Lemma engagementValues_ok : forallb okImpact engagementValues = true.
Proof. vm_compute. reflexivity. Qed.

Open Scope float_scope.

Lemma okImpact_spec (r : float) :
  okImpact r = true ->
  (0 <=? round2 r) = true /\ (round2 r <=? 1) = true /\ two_decimals (round2 r).
Proof.
  unfold okImpact; cbv zeta. intros H.
  apply andb_prop in H as [H H3]. apply andb_prop in H as [H1 H2].
  apply FloatAxioms.Leibniz.eqb_spec in H3. now repeat split.
Qed.

Lemma okScore_spec (t : Tally) :
  okScore t = true ->
  let u := scoreSoFar t in
  let y := round2 u in
  (0.07 <=? u) = true /\ (u <=? 0.81) = true
  /\ (0.07 <=? y) = true /\ (y <=? 0.81) = true
  /\ (0 <=? y) = true /\ (y <=? 1) = true /\ two_decimals y
  /\ (Z.abs (centsSoFar t - 100 * cents y) <= 50)%Z
  /\ JS.strict_eq y 0 = false /\ JS.strict_eq y 1 = false
  /\ implb (JS.ge u 0.7) (JS.ge u 0.4) = true
  /\ Bool.eqb (JS.ge u 0.7) (negb (JS.lt u 0.7)) = true
  /\ Bool.eqb (JS.ge u 0.4) (negb (JS.lt u 0.4)) = true
  /\ implb (is_high (levelOf u)) (JS.ge y 0.7) = true
  /\ implb (is_medium (levelOf u)) (JS.ge y 0.4 && (y <=? 0.7)) = true
  /\ implb (is_low (levelOf u)) (y <=? 0.4) = true
  /\ implb (JS.gt y 0.7) (is_high (levelOf u)) = true
  /\ implb (JS.gt y 0.4 && JS.lt y 0.7) (is_medium (levelOf u)) = true
  /\ implb (JS.lt y 0.4) (is_low (levelOf u)) = true.
Proof.
  unfold okScore; cbv zeta. intros H.
  repeat match type of H with
         | (_ && _) = true => let K := fresh "K" in apply andb_prop in H as [H K]
         end.
  repeat match goal with
         | K : okImpact _ = true |- _ => apply okImpact_spec in K as (? & ? & ?)
         | K : Z.leb _ _ = true |- _ => apply Z.leb_le in K
         | K : negb _ = true |- _ => apply negb_true_iff in K
         end.
  repeat split; assumption.
Qed.

Lemma okImpact_of_values (vals : list float) (r : float) :
  forallb okImpact vals = true -> In r vals ->
  (0 <=? round2 r) = true /\ (round2 r <=? 1) = true /\ two_decimals (round2 r).
Proof.
  intros H Hr. rewrite forallb_forall in H. now apply okImpact_spec, H.
Qed.

End Tallies.

(** ** The aggregator's score, level and factors *)

Section AggregatorTheorems.

Open Scope float_scope.

(** Refutes an equation between two closed numbers that differ. *)
Local Ltac float_neq H :=
  match type of H with
  | _ = ?b => apply (f_equal (fun x => PrimFloat.eqb x b)) in H;
              vm_compute in H; discriminate H
  end.

(** C1, as stated, fails: [borderline] has the weighted score 0.395; its
    level, taken before rounding, is ["low"], while the returned
    risk_score is 0.40, which is not below 0.40. *)
Lemma low_level_at_score_040 :
  risk_level (predictDropoutRisk borderline) = low
  /\ risk_score (predictDropoutRisk borderline) = 0.4
  /\ ~ (risk_level (predictDropoutRisk borderline) = low
        <-> JS.lt (risk_score (predictDropoutRisk borderline)) 0.4 = true).
Proof.
  assert (L : risk_level (predictDropoutRisk borderline) = low)
    by (vm_compute; reflexivity).
  split; [exact L | split; [vm_compute; reflexivity |]].
  intros [H _]. specialize (H L). vm_compute in H. discriminate H.
Qed.

(** C1 (amended): for every student the returned risk_score lies in
    [0,1] and is the weighted score rounded to 2 decimals; the risk_level
    is decided by the unrounded weighted score (high iff it is >= 0.70,
    medium iff it is >= 0.40 and < 0.70, low iff it is < 0.40).  For the
    returned score this gives: high implies risk_score >= 0.70, medium
    implies 0.40 <= risk_score <= 0.70, low implies risk_score <= 0.40;
    and risk_score > 0.70 implies high, 0.40 < risk_score < 0.70 implies
    medium, risk_score < 0.40 implies low. *)
Theorem risk_level_follows_unrounded_score (s : Student) :
  risk_score (predictDropoutRisk s) = round2 (riskScoreOf s)
  /\ (0 <=? risk_score (predictDropoutRisk s)) = true
  /\ (risk_score (predictDropoutRisk s) <=? 1) = true
  /\ (risk_level (predictDropoutRisk s) = high
      <-> JS.ge (riskScoreOf s) 0.7 = true)
  /\ (risk_level (predictDropoutRisk s) = medium
      <-> JS.ge (riskScoreOf s) 0.4 = true /\ JS.lt (riskScoreOf s) 0.7 = true)
  /\ (risk_level (predictDropoutRisk s) = low
      <-> JS.lt (riskScoreOf s) 0.4 = true)
  /\ (risk_level (predictDropoutRisk s) = high ->
      JS.ge (risk_score (predictDropoutRisk s)) 0.7 = true)
  /\ (risk_level (predictDropoutRisk s) = medium ->
      JS.ge (risk_score (predictDropoutRisk s)) 0.4 = true
      /\ (risk_score (predictDropoutRisk s) <=? 0.7) = true)
  /\ (risk_level (predictDropoutRisk s) = low ->
      (risk_score (predictDropoutRisk s) <=? 0.4) = true)
  /\ (JS.gt (risk_score (predictDropoutRisk s)) 0.7 = true ->
      risk_level (predictDropoutRisk s) = high)
  /\ (JS.gt (risk_score (predictDropoutRisk s)) 0.4 = true ->
      JS.lt (risk_score (predictDropoutRisk s)) 0.7 = true ->
      risk_level (predictDropoutRisk s) = medium)
  /\ (JS.lt (risk_score (predictDropoutRisk s)) 0.4 = true ->
      risk_level (predictDropoutRisk s) = low).
Proof.
  destruct (okScore_spec _ (okScore_student s))
    as (_ & _ & _ & _ & Y0 & Y1 & _ & _ & _ & _ & U74 & U7 & U4
        & Hh & Hm & Hl & Gh & Gm & Gl).
  change (risk_score (predictDropoutRisk s)) with (round2 (riskScoreOf s)).
  change (risk_level (predictDropoutRisk s)) with (levelOf (riskScoreOf s)).
  cbn [tallyOf scoreSoFar] in *.
  generalize dependent (round2 (riskScoreOf s)); intros y.
  generalize dependent (riskScoreOf s); intros u.
  unfold levelOf.
  destruct (JS.ge u 0.7), (JS.ge u 0.4), (JS.lt u 0.7), (JS.lt u 0.4);
    cbn; intros; try discriminate;
    repeat split; intros; try reflexivity; try discriminate; try assumption;
    repeat match goal with
           | H : _ /\ _ |- _ => destruct H
           | H : (_ && _) = true |- _ => apply andb_prop in H as [? ?]
           | H : ?b = true, H' : context [?b] |- _ =>
               rewrite H in H'; cbn in H'
           end;
    try discriminate; try assumption.
Qed.

(** C2, as stated, fails: for [scenario2] the five impacts under their
    weights add up to 0.515, the returned risk_score is 0.53; the
    difference is the demographic risk 0.1 under its weight 0.15. *)
Lemma weighted_impacts_miss_demographics :
  JS.strict_eq (weightedImpacts (prediction_factors (predictDropoutRisk scenario2)))
               (risk_score (predictDropoutRisk scenario2)) = false
  /\ weightedImpacts (prediction_factors (predictDropoutRisk scenario2)) = 0.515
  /\ risk_score (predictDropoutRisk scenario2) = 0.53.
Proof. repeat split; vm_compute; reflexivity. Qed.

(** C2 (amended): for every student the prediction_factors hold five
    impact values, each the output of its calculator rounded to 2
    decimals, each in [0,1] and of 2-decimal precision; the returned
    risk_score has 2-decimal precision and is the sum of the five impacts
    under their weights (0.25, 0.20, 0.15, 0.15, 0.10) plus 0.15 times the
    demographic risk, rounded to 2 decimals: in exact arithmetic the two
    differ by at most 0.005 (50 units of 1/10000). *)
Theorem prediction_factors_account (s : Student) :
  prediction_factors (predictDropoutRisk s)
  = {| attendance_impact := round2 (calculateAttendanceRisk (attendance_percentage s));
       academic_impact := round2 (calculateAcademicRisk (cgpa s) (sgpa s));
       financial_impact :=
         round2 (calculateFinancialRisk (fee_default s) (scholarship s)
                                        (family_income s));
       behavioral_impact := round2 (calculateBehavioralRisk (disciplinary_actions s));
       engagement_impact := round2 (calculateEngagementRisk (extracurriculars s)) |}
  /\ Forall (fun i => (0 <=? i) = true /\ (i <=? 1) = true /\ two_decimals i)
       [ attendance_impact (prediction_factors (predictDropoutRisk s));
         academic_impact (prediction_factors (predictDropoutRisk s));
         financial_impact (prediction_factors (predictDropoutRisk s));
         behavioral_impact (prediction_factors (predictDropoutRisk s));
         engagement_impact (prediction_factors (predictDropoutRisk s)) ]
  /\ two_decimals (risk_score (predictDropoutRisk s))
  /\ (Z.abs (weightedCents (prediction_factors (predictDropoutRisk s))
                           (calculateDemographicRisk s)
             - 100 * cents (risk_score (predictDropoutRisk s))) <= 50)%Z.
Proof.
  split; [reflexivity|]. split.
  - cbn [prediction_factors predictDropoutRisk attendance_impact academic_impact
         financial_impact behavioral_impact engagement_impact].
    repeat apply Forall_cons; [| | | | |apply Forall_nil].
    + apply (okImpact_of_values _ _ attendanceValues_ok),
        calculateAttendanceRisk_values.
    + apply (okImpact_of_values _ _ academicValues_ok),
        calculateAcademicRisk_values.
    + apply (okImpact_of_values _ _ financialValues_ok),
        calculateFinancialRisk_values.
    + apply (okImpact_of_values _ _ behavioralValues_ok),
        calculateBehavioralRisk_values.
    + apply (okImpact_of_values _ _ engagementValues_ok),
        calculateEngagementRisk_values.
  - destruct (okScore_spec _ (okScore_student s))
      as (_ & _ & _ & _ & _ & _ & T & C & _).
    split; [exact T | exact C].
Qed.

(** C9: for every student the unrounded weighted score lies in
    [0.07, 0.81]; 0.07 is the score of [safest], where every calculator
    returns its lowest value, and 0.81 the score of [riskiest], where
    every calculator returns its highest; so the returned risk_score is
    never 0 nor 1, never above 0.81, and the level ["high"] occurs. *)
Theorem weighted_score_range :
  (forall s : Student,
      (0.07 <=? riskScoreOf s) = true /\ (riskScoreOf s <=? 0.81) = true
      /\ (0.07 <=? risk_score (predictDropoutRisk s)) = true
      /\ (risk_score (predictDropoutRisk s) <=? 0.81) = true
      /\ JS.strict_eq (risk_score (predictDropoutRisk s)) 0 = false
      /\ JS.strict_eq (risk_score (predictDropoutRisk s)) 1 = false)
  /\ (calculateAttendanceRisk (attendance_percentage safest) = 0.1
      /\ calculateAcademicRisk (cgpa safest) (sgpa safest) = 0.1
      /\ calculateFinancialRisk (fee_default safest) (scholarship safest)
                                (family_income safest) = 0
      /\ calculateBehavioralRisk (disciplinary_actions safest) = 0.1
      /\ calculateEngagementRisk (extracurriculars safest) = 0.1
      /\ calculateDemographicRisk safest = 0
      /\ riskScoreOf safest = 0.07)
  /\ (calculateAttendanceRisk (attendance_percentage riskiest) = 0.9
      /\ calculateAcademicRisk (cgpa riskiest) (sgpa riskiest) = 0.8
      /\ calculateFinancialRisk (fee_default riskiest) (scholarship riskiest)
                                (family_income riskiest) = 1.0
      /\ calculateBehavioralRisk (disciplinary_actions riskiest) = 0.8
      /\ calculateEngagementRisk (extracurriculars riskiest) = 0.5
      /\ calculateDemographicRisk riskiest = 0.2 + 0.1 + 0.3 + 0.1
      /\ riskScoreOf riskiest = 0.81
      /\ risk_level (predictDropoutRisk riskiest) = high).
Proof.
  split; [|split].
  - intros s.
    destruct (okScore_spec _ (okScore_student s))
      as (A & B & C & D & _ & _ & _ & _ & E & F & _).
    repeat split; assumption.
  - repeat split; vm_compute; reflexivity.
  - repeat split; vm_compute; reflexivity.
Qed.

(** C6, as stated, fails: an attendance of 68.2 is below 70 and at least
    60, which is the 0.7 step, not 0.5; a GPA average of 6.0 is the 0.4
    step, not 0.6; and the score is 0.53, not 0.52. *)
Lemma scenario2_not_as_stated :
  ~ (calculateAttendanceRisk 68.2 = 0.5
     /\ calculateAcademicRisk 5.9 6.1 = 0.6
     /\ calculateFinancialRisk true false Undefined = 0.8
     /\ calculateBehavioralRisk 2 = 0.6
     /\ calculateEngagementRisk 0 = 0.5
     /\ calculateDemographicRisk scenario2 = 0.1
     /\ risk_score (predictDropoutRisk scenario2) = 0.52
     /\ risk_level (predictDropoutRisk scenario2) = medium).
Proof. intros (H & _). float_neq H. Qed.

(** C6 (amended): for the student of the scenario the calculators return
    attendance_risk = 0.7, academic_risk = 0.4, financial_risk = 0.8,
    behavioral_risk = 0.6, engagement_risk = 0.5, demographic_risk = 0.1,
    and the aggregator returns score 0.53 with level ["medium"]. *)
Theorem scenario2_values :
  calculateAttendanceRisk (attendance_percentage scenario2) = 0.7
  /\ calculateAcademicRisk (cgpa scenario2) (sgpa scenario2) = 0.4
  /\ calculateFinancialRisk (fee_default scenario2) (scholarship scenario2)
                            (family_income scenario2) = 0.8
  /\ calculateBehavioralRisk (disciplinary_actions scenario2) = 0.6
  /\ calculateEngagementRisk (extracurriculars scenario2) = 0.5
  /\ calculateDemographicRisk scenario2 = 0.1
  /\ risk_score (predictDropoutRisk scenario2) = 0.53
  /\ risk_level (predictDropoutRisk scenario2) = medium.
Proof. repeat split; vm_compute; reflexivity. Qed.

End AggregatorTheorems.

(** ** Missing optional fields *)

Section MissingFields.

Open Scope float_scope.

(** An absent ([undefined]) family income adds nothing: the financial
    risk is that of a student whose known income is in the top band. *)
Lemma undefined_income_adds_nothing (fd sc : bool) (x : float) :
  JS.lt x 200000 = false -> JS.lt x 500000 = false ->
  calculateFinancialRisk fd sc Undefined = calculateFinancialRisk fd sc (Num x).
Proof.
  intros H2 H5. unfold calculateFinancialRisk, incomeTerm; cbv zeta.
  cbn [OptNum.not_undefined OptNum.to_number]. now rewrite H2, H5.
Qed.

(** An unknown distance, [undefined] or [null], adds nothing: the
    demographic risk is that of a student living within 500. *)
Lemma missing_distance_adds_nothing (risk : float) (d : optnum) (x : float) :
  d = Undefined \/ d = Null ->
  JS.gt x 500 = false ->
  distanceTerm risk d = risk /\ distanceTerm risk d = distanceTerm risk (Num x).
Proof.
  intros Hd Hx. unfold distanceTerm.
  cbn [OptNum.to_number]. rewrite Hx, andb_false_r.
  destruct Hd; subst d; cbn; auto.
Qed.

(** C3, the family-income half on a row of the record store: a [null]
    family income is not [undefined], so the income block runs and
    compares [null], that is 0, with 200000: the student is charged the
    low-income 0.3, where an absent income is charged nothing.  The
    distance term, tested by truthiness, treats [null] as absent. *)
Theorem null_income_counts_as_low_income :
  calculateFinancialRisk false true Null = 0.3
  /\ calculateFinancialRisk false true Undefined = 0
  /\ (forall fd sc, calculateFinancialRisk fd sc Null
                    = calculateFinancialRisk fd sc (Num 0))
  /\ (forall risk, incomeTerm risk Undefined = risk)
  /\ (forall risk, distanceTerm risk Undefined = risk)
  /\ (forall risk, distanceTerm risk Null = risk).
Proof.
  repeat split; try (vm_compute; reflexivity).
Qed.

End MissingFields.

(** ** The attendance step function *)

Section Attendance.

Open Scope float_scope.

Lemma ge_mono (t a1 a2 : float) :
  (a1 <=? a2) = true -> JS.ge a1 t = true -> JS.ge a2 t = true.
Proof. unfold JS.ge. intros H12 H. exact (FloatOrder.leb_trans _ _ _ H H12). Qed.

Lemma lt_not_ge (t a : float) : JS.lt a t = true -> JS.ge a t = false.
Proof. apply FloatOrder.ltb_leb_false. Qed.

Lemma not_ge_lt (t a : float) :
  (a <=? a) = true -> (t <=? t) = true -> JS.ge a t = false -> JS.lt a t = true.
Proof. apply FloatOrder.leb_false_ltb. Qed.

Lemma ge_weaken (t1 t2 a : float) :
  (t1 <=? t2) = true -> JS.ge a t2 = true -> JS.ge a t1 = true.
Proof. unfold JS.ge. intros H12 H. exact (FloatOrder.leb_trans _ _ _ H12 H). Qed.

Lemma attendance_bands (a : float) :
  (a <=? a) = true -> attendanceStep a (calculateAttendanceRisk a).
Proof.
  intros Hr.
  pose proof (not_ge_lt 90 a Hr eq_refl) as N90.
  pose proof (not_ge_lt 80 a Hr eq_refl) as N80.
  pose proof (not_ge_lt 70 a Hr eq_refl) as N70.
  pose proof (not_ge_lt 60 a Hr eq_refl) as N60.
  pose proof (ge_weaken 80 90 a eq_refl) as M98.
  pose proof (ge_weaken 70 80 a eq_refl) as M87.
  pose proof (ge_weaken 60 70 a eq_refl) as M76.
  unfold attendanceStep, calculateAttendanceRisk.
  destruct (JS.ge a 90) eqn:G90, (JS.ge a 80) eqn:G80,
           (JS.ge a 70) eqn:G70, (JS.ge a 60) eqn:G60;
    repeat match goal with
           | H : ?b = ?b -> _ |- _ => specialize (H eq_refl)
           | H : true = false -> _ |- _ => clear H
           end;
    try discriminate;
    repeat match goal with |- _ /\ _ => split end; intros;
    repeat match goal with
           | H : JS.lt a _ = true |- _ = _ => apply lt_not_ge in H
           end;
    try reflexivity; try congruence; tauto.
Qed.

(** C7: for attendance values a1 <= a2 in [0,100] the attendance risk is
    the step function (>= 90 gives 0.1, >= 80 gives 0.3, >= 70 gives 0.5,
    >= 60 gives 0.7, below 60 gives 0.9, and every value falls in one of
    these bands), it lies in {0.1, 0.3, 0.5, 0.7, 0.9}, and it does not
    increase: the risk of a1 is at least the risk of a2. *)
Theorem attendance_risk_step (a1 a2 : float) :
  (0 <=? a1) = true -> (a1 <=? a2) = true -> (a2 <=? 100) = true ->
  attendanceStep a1 (calculateAttendanceRisk a1)
  /\ attendanceStep a2 (calculateAttendanceRisk a2)
  /\ In (calculateAttendanceRisk a1) [0.1; 0.3; 0.5; 0.7; 0.9]
  /\ In (calculateAttendanceRisk a2) [0.1; 0.3; 0.5; 0.7; 0.9]
  /\ JS.ge (calculateAttendanceRisk a1) (calculateAttendanceRisk a2) = true.
Proof.
  intros H0 H12 H100.
  split; [apply attendance_bands; exact (FloatOrder.leb_refl_l _ _ H12)|].
  split; [apply attendance_bands; exact (FloatOrder.leb_refl_r _ _ H12)|].
  split; [apply calculateAttendanceRisk_values|].
  split; [apply calculateAttendanceRisk_values|].
  pose proof (ge_mono 90 a1 a2 H12) as M90.
  pose proof (ge_mono 80 a1 a2 H12) as M80.
  pose proof (ge_mono 70 a1 a2 H12) as M70.
  pose proof (ge_mono 60 a1 a2 H12) as M60.
  unfold calculateAttendanceRisk.
  destruct (JS.ge a1 90), (JS.ge a1 80), (JS.ge a1 70), (JS.ge a1 60);
    try (rewrite (M90 eq_refl)); try (rewrite (M80 eq_refl));
    try (rewrite (M70 eq_refl)); try (rewrite (M60 eq_refl));
    destruct (JS.ge a2 90), (JS.ge a2 80), (JS.ge a2 70), (JS.ge a2 60);
    reflexivity.
Qed.

(** The theorem at a1 = 65 and a2 = 85. *)
Lemma attendance_risk_step_witness :
  calculateAttendanceRisk 65 = 0.7
  /\ calculateAttendanceRisk 85 = 0.3
  /\ JS.ge (calculateAttendanceRisk 65) (calculateAttendanceRisk 85) = true.
Proof.
  destruct (attendance_risk_step 65 85 eq_refl eq_refl eq_refl)
    as (B1 & B2 & _ & _ & M).
  split; [|split].
  - destruct B1 as (_ & _ & _ & K & _). exact (K eq_refl eq_refl).
  - destruct B2 as (_ & K & _). exact (K eq_refl eq_refl).
  - exact M.
Defined.

End Attendance.

(** ** The request handler *)

Section HandlerTheorems.

Context {Store : Type}.
Variable select_unscored : Store -> Store * QueryResult.
Variable select_by_ids : jsval -> Store -> Store * QueryResult.
Variable upsert : list Update -> Store -> Store * option StoreError.

Local Abbreviation persist := (persistBatches upsert).
Local Abbreviation select := (selectStudents select_unscored select_by_ids).
Local Abbreviation handler := (serve select_unscored select_by_ids upsert).

Lemma slice_batch {A : Type} (i : nat) (l : list A) :
  slice i (i + batchSize) l = firstn batchSize (skipn i l).
Proof. unfold slice. f_equal. lia. Qed.

Lemma persistedRecords_cons (b : list Update * bool) bs :
  persistedRecords (b :: bs)
  = (if snd b then List.length (fst b) else 0) + persistedRecords bs.
Proof. reflexivity. Qed.

(** The loop, for any fuel that covers what is left of [predictions]. *)
Lemma persistBatches_spec (fuel : nat) :
  forall (i : nat) (predictions : list Prediction) (w : World) (count : nat),
    List.length predictions - i <= fuel ->
    exists batches : list (list Update * bool),
      trace (fst (persist fuel i predictions w count))
      = trace w ++ map upsertEvent batches
      /\ List.concat (map fst batches) = map toUpdate (skipn i predictions)
      /\ Forall (fun b => 1 <= List.length (fst b) <= batchSize) batches
      /\ Forall (fun b => List.length (fst b) = batchSize) (removelast batches)
      /\ upsertAll upsert (map fst batches) (store w)
         = (store (fst (persist fuel i predictions w count)), map snd batches)
      /\ snd (persist fuel i predictions w count)
         = count + persistedRecords batches.
Proof.
  assert (Done : forall i (predictions : list Prediction) (w : @World Store) count,
             List.length predictions <= i ->
             exists batches : list (list Update * bool),
               trace w = trace w ++ map upsertEvent batches
               /\ List.concat (map fst batches) = map toUpdate (skipn i predictions)
               /\ Forall (fun b => 1 <= List.length (fst b) <= batchSize) batches
               /\ Forall (fun b => List.length (fst b) = batchSize)
                         (removelast batches)
               /\ upsertAll upsert (map fst batches) (store w)
                  = (store w, map snd batches)
               /\ count = count + persistedRecords batches).
  { intros i predictions w count Hi. exists []. cbn.
    rewrite app_nil_r, (skipn_all2 predictions Hi).
    repeat split; auto. }
  induction fuel as [|fuel IH]; intros i predictions w count Hfuel.
  - cbn. apply Done. lia.
  - cbn [persistBatches].
    destruct (Nat.ltb i (List.length predictions)) eqn:Hlt.
    2:{ apply Nat.ltb_ge in Hlt. cbn. now apply Done. }
    apply Nat.ltb_lt in Hlt. rewrite slice_batch.
    set (batch := firstn batchSize (skipn i predictions)).
    unfold run_upsert.
    destruct (upsert (map toUpdate batch) (store w)) as [st e] eqn:Hup.
    set (ok := match e with Some _ => false | None => true end).
    set (w' := {| store := st; trace := _ |}).
    set (count' := match e with Some _ => count | None => _ end).
    destruct (IH (i + batchSize) predictions w' count' ltac:(unfold batchSize in *; lia))
      as (rest & Htr & Hcat & Hlen & Hfull & Hst & Hcnt).
    assert (Hb : List.length batch = Nat.min batchSize (List.length predictions - i)).
    { unfold batch. now rewrite length_firstn, length_skipn. }
    exists ((map toUpdate batch, ok) :: rest).
    split; [|split; [|split; [|split; [|split]]]].
    + rewrite Htr. unfold w'. cbn [trace map]. rewrite <- app_assoc. cbn.
      do 3 f_equal. unfold upsertEvent, ok. cbn. now destruct e.
    + cbn [map List.concat fst]. rewrite Hcat, <- map_app. f_equal.
      unfold batch. rewrite Nat.add_comm, <- skipn_skipn.
      apply firstn_skipn.
    + constructor; [|assumption]. cbn [fst]. rewrite length_map, Hb.
      unfold batchSize. lia.
    + destruct rest as [|b rest']; [constructor|].
      change (removelast ((map toUpdate batch, ok) :: b :: rest'))
        with ((map toUpdate batch, ok) :: removelast (b :: rest')).
      constructor; [|assumption]. cbn [fst]. rewrite length_map, Hb.
      assert (Hne : 1 <= List.length (skipn (i + batchSize) predictions)).
      { apply (f_equal (@List.length Update)) in Hcat.
        rewrite length_map in Hcat. rewrite <- Hcat. cbn [map List.concat].
        rewrite length_app. inversion Hlen as [|? ? [Hb1 _] _]; subst. lia. }
      rewrite length_skipn in Hne. unfold batchSize in *. lia.
    + cbn [map fst snd upsertAll]. rewrite Hup.
      unfold w' in Hst. cbn [store] in Hst. rewrite Hst. reflexivity.
    + rewrite Hcnt, persistedRecords_cons. cbn [fst snd].
      unfold count', ok. rewrite length_map. destruct e; lia.
Qed.

Lemma predictions_updates (students : list Student) :
  map toUpdate
      (map (fun student => {| prediction_id := id student;
                              prediction := predictDropoutRisk student |})
           students)
  = updatesFor students.
Proof. unfold updatesFor. rewrite map_map. reflexivity. Qed.

Lemma predictAndPersist_spec (students : list Student) (w : World) :
  BestEffort upsert students w (predictAndPersist upsert students w).
Proof.
  unfold predictAndPersist.
  set (predictions := map _ students).
  destruct (persistBatches_spec (List.length predictions) 0 predictions w 0
              ltac:(lia)) as (batches & Htr & Hcat & Hlen & Hfull & Hst & Hcnt).
  destruct (persistBatches upsert _ 0 predictions w 0) as [w' n].
  cbn [fst snd] in *. subst n. exists batches.
  cbn [fst snd]. repeat split; try assumption.
  rewrite Hcat. cbn [skipn]. apply predictions_updates.
Qed.

(** C4: a run whose selection succeeds with [students] persists their
    updates by best effort: the computed updates are cut into
    consecutive batches of 50 (the last possibly shorter), each batch is
    upserted once, in order, whether or not earlier batches failed, each
    on the store the upsert before left behind; the store at the end of
    the run is the store after the last upsert; the response is always
    the 200 summary, also when every batch failed, with totalCount the
    number of students considered and processedCount the number of
    records in the batches that the store accepted. *)
Theorem batches_persisted_best_effort
  (req : Request) (st : Store) (ids flag : jsval)
  (w1 : World) (students : list Student) :
  String.eqb (method req) "OPTIONS" = false ->
  json req = Fields ids flag ->
  selectStudents select_unscored select_by_ids ids flag
                 {| store := st; trace := [] |} = (w1, Selected students) ->
  BestEffort upsert students w1
             (serve select_unscored select_by_ids upsert req st).
Proof.
  intros Hm Hj Hs. unfold serve. rewrite Hm, Hj, Hs.
  apply predictAndPersist_spec.
Qed.

Lemma rejected_without_selection (req : Request) (st : Store) (ids flag : jsval) :
  String.eqb (method req) "OPTIONS" = false ->
  json req = Fields ids flag ->
  JsVal.truthy flag = false ->
  JsVal.truthy ids && JsVal.length_positive ids = false ->
  serve select_unscored select_by_ids upsert req st
  = ({| status := 400; body := ErrorBody "No students specified for prediction" |},
     {| store := st; trace := [] |}).
Proof.
  intros Hm Hj Hf Hi. unfold serve, selectStudents.
  now rewrite Hm, Hj, Hf, Hi.
Qed.

(** C5 (amended): a request (not a preflight, with a readable body) whose
    processNewStudents is absent or falsy and whose studentIds is absent
    or an empty list is answered with status 400 and the message
    ["No students specified for prediction"]; no store call is made and
    the store is left as it was. *)
Theorem no_selection_is_rejected
  (req : Request) (st : Store) (ids flag : jsval) :
  String.eqb (method req) "OPTIONS" = false ->
  json req = Fields ids flag ->
  JsVal.truthy flag = false ->
  ids = VUndefined \/ ids = VArr [] ->
  serve select_unscored select_by_ids upsert req st
  = ({| status := 400; body := ErrorBody "No students specified for prediction" |},
     {| store := st; trace := [] |}).
Proof.
  intros Hm Hj Hf Hi. apply (rejected_without_selection req st ids flag); auto.
  destruct Hi; subst ids; reflexivity.
Qed.

Lemma upsertEvent_not_select (batches : list (list Update * bool)) :
  forallb (fun ev => negb (isSelectByIds (call ev))) (map upsertEvent batches) = true.
Proof. induction batches; cbn; auto. Qed.

Lemma flag_selects_unscored (st : Store) (ids flag : jsval) :
  JsVal.truthy flag = true ->
  select ids flag {| store := st; trace := [] |}
  = ({| store := fst (select_unscored st);
        trace := [{| call := SelectUnscored;
                     failed := match error (snd (select_unscored st)) with
                               | Some _ => true | None => false
                               end |}] |},
     match error (snd (select_unscored st)) with
     | Some e => Thrown e
     | None => Selected (match data (snd (select_unscored st)) with
                         | Some rows => rows
                         | None => []
                         end)
     end).
Proof.
  intros Hf. unfold selectStudents, run_select, studentsOf. rewrite Hf.
  cbn [store trace]. destruct (select_unscored st) as [st' r]. reflexivity.
Qed.

(** C10: when processNewStudents is truthy and a non-empty studentIds
    is supplied too, the population is exactly the rows the store returns
    for the null-risk-score selection: when that selection succeeds with
    [rows] (none, if it returns null) the run persists by best effort the
    updates computed for [rows], in their order, and reports their number
    as totalCount; when it fails the run ends with status 500 and nothing
    is written.  No selection by identifier is made, and the outcome does
    not depend on the studentIds supplied. *)
Theorem flag_takes_precedence
  (req : Request) (st : Store) (ids flag : jsval) :
  String.eqb (method req) "OPTIONS" = false ->
  json req = Fields ids flag ->
  JsVal.truthy flag = true ->
  JsVal.truthy ids && JsVal.length_positive ids = true ->
  (forall rows : list Student,
      error (snd (select_unscored st)) = None ->
      data (snd (select_unscored st)) = Some rows
      \/ (data (snd (select_unscored st)) = None /\ rows = []) ->
      BestEffort upsert rows
                 {| store := fst (select_unscored st);
                    trace := [{| call := SelectUnscored; failed := false |}] |}
                 (serve select_unscored select_by_ids upsert req st))
  /\ (forall e : StoreError,
         error (snd (select_unscored st)) = Some e ->
         serve select_unscored select_by_ids upsert req st
         = ({| status := 500; body := ErrorBody (errorMessage (message e)) |},
            {| store := fst (select_unscored st);
               trace := [{| call := SelectUnscored; failed := true |}] |}))
  /\ forallb (fun ev => negb (isSelectByIds (call ev)))
             (trace (snd (serve select_unscored select_by_ids upsert req st)))
     = true
  /\ (forall ids' : jsval,
         serve select_unscored select_by_ids upsert
               {| method := method req; json := Fields ids' flag |} st
         = serve select_unscored select_by_ids upsert req st).
Proof.
  intros Hm Hj Hf _.
  pose proof (fun i => flag_selects_unscored st i flag Hf) as Hsel.
  split; [|split; [|split]].
  - intros rows He Hd. unfold serve. rewrite Hm, Hj, Hsel, He.
    replace (match data (snd (select_unscored st)) with
             | Some l => l
             | None => []
             end) with rows
      by (destruct Hd as [-> | [-> ->]]; reflexivity).
    apply predictAndPersist_spec.
  - intros e He. unfold serve. rewrite Hm, Hj, Hsel, He. reflexivity.
  - unfold serve. rewrite Hm, Hj, Hsel.
    destruct (error (snd (select_unscored st))) as [e|]; [reflexivity|].
    match goal with |- context [predictAndPersist upsert ?students ?w] =>
      destruct (predictAndPersist_spec students w) as (batches & Htr & _)
    end.
    rewrite Htr. cbn [trace]. rewrite forallb_app.
    now rewrite upsertEvent_not_select.
  - intros ids'. unfold serve. cbn [method json].
    now rewrite Hm, Hj, !Hsel.
Qed.

End HandlerTheorems.


(** ** The handler on the scripted store *)

Section ScriptedRuns.

Import Scripted.

(** Of 120 students in three batches, only the second batch is
    persisted: the run still answers 200, with 50 of 120 processed. *)
Example flaky_run :
  fst (Scripted.serve (post VUndefined (VBool true)) flakyStore)
  = {| status := 200;
       body := SummaryBody "Successfully processed 50 students" 50 120 |}
  /\ map (fun b => (List.length (fst b), snd b))
         (upsertsOf (trace (snd (Scripted.serve (post VUndefined (VBool true))
                                                flakyStore))))
     = [(50, false); (50, true); (20, false)].
Proof. split; vm_compute; reflexivity. Qed.

(** When the only batch fails the answer is still the 200 summary. *)
Example single_failed_batch :
  fst (Scripted.serve (post VUndefined (VBool true))
                      {| unscored := population 2; script := [true] |})
  = {| status := 200;
       body := SummaryBody "Successfully processed 0 students" 0 2 |}.
Proof. vm_compute; reflexivity. Qed.

(** The theorem of C4 on that run. *)
Lemma batches_persisted_best_effort_witness :
  BestEffort Scripted.upsert (population 120)
             {| store := flakyStore;
                trace := [{| call := SelectUnscored; failed := false |}] |}
             (Scripted.serve (post VUndefined (VBool true)) flakyStore).
Proof.
  exact (batches_persisted_best_effort
           Scripted.select_unscored Scripted.select_by_ids Scripted.upsert
           (post VUndefined (VBool true)) flakyStore VUndefined (VBool true)
           {| store := flakyStore;
              trace := [{| call := SelectUnscored; failed := false |}] |}
           (population 120) eq_refl eq_refl eq_refl).
Defined.

(** C5, as stated, fails: an empty studentIds list together with a
    truthy processNewStudents is served: the unscored students are read
    and written back, and the answer is 200. *)
Lemma empty_list_with_flag_is_served :
  fst (Scripted.serve (post (VArr []) (VBool true)) twoStudents)
  = {| status := 200;
       body := SummaryBody "Successfully processed 2 students" 2 2 |}
  /\ map call (trace (snd (Scripted.serve (post (VArr []) (VBool true))
                                          twoStudents)))
     = [SelectUnscored; Upsert (updatesFor (population 2))].
Proof. split; vm_compute; reflexivity. Qed.

(** The theorem of C5 on an empty list without the flag. *)
Lemma no_selection_is_rejected_witness :
  Scripted.serve (post (VArr []) (VBool false)) twoStudents
  = ({| status := 400; body := ErrorBody "No students specified for prediction" |},
     {| store := twoStudents; trace := [] |}).
Proof.
  exact (no_selection_is_rejected
           Scripted.select_unscored Scripted.select_by_ids Scripted.upsert
           (post (VArr []) (VBool false)) twoStudents (VArr []) (VBool false)
           eq_refl eq_refl eq_refl (or_intror eq_refl)).
Defined.

(** The theorem of C10 on a request with the flag and one identifier, on
    a store that returns two unscored rows: both are scored and written,
    and the identifier changes nothing. *)
Lemma flag_takes_precedence_witness :
  BestEffort Scripted.upsert (population 2)
             {| store := twoStudents;
                trace := [{| call := SelectUnscored; failed := false |}] |}
             (Scripted.serve (post (VArr ["s2"%string]) (VBool true)) twoStudents)
  /\ forallb (fun ev => negb (isSelectByIds (call ev)))
             (trace (snd (Scripted.serve (post (VArr ["s2"%string]) (VBool true))
                                         twoStudents))) = true
  /\ Scripted.serve (post (VArr []) (VBool true)) twoStudents
     = Scripted.serve (post (VArr ["s2"%string]) (VBool true)) twoStudents.
Proof.
  destruct (flag_takes_precedence
              Scripted.select_unscored Scripted.select_by_ids Scripted.upsert
              (post (VArr ["s2"%string]) (VBool true)) twoStudents
              (VArr ["s2"%string]) (VBool true)
              eq_refl eq_refl eq_refl eq_refl) as (H0 & _ & H1 & H2).
  split; [exact (H0 (population 2) eq_refl (or_introl eq_refl))|].
  split; [exact H1 | exact (H2 (VArr []))].
Defined.

End ScriptedRuns.

(** ** The upload normaliser *)

Section IngestionTheorems.

Variable parseInt : jsstring -> float.
Variable parseFloat : jsstring -> float.
Variable toLowerCase : jsstring -> jsstring.

Local Abbreviation row := (mapRow parseInt parseFloat toLowerCase).
Local Abbreviation keeps := (keepsRow parseInt parseFloat toLowerCase).
Local Abbreviation headerRow := (headersOf toLowerCase).

Lemma get_set_same (k : string) (v : FieldValue) (o : Payload) :
  Obj.get k (Obj.set k v o) = Some v.
Proof.
  induction o as [|[k' v'] o IH]; cbn.
  - now rewrite String.eqb_refl.
  - destruct (String.eqb k k') eqn:E; cbn.
    + now rewrite String.eqb_refl.
    + now rewrite E.
Qed.

Lemma get_set_other (k k' : string) (v : FieldValue) (o : Payload) :
  String.eqb k k' = false -> Obj.get k (Obj.set k' v o) = Obj.get k o.
Proof.
  intros Hk. induction o as [|[k2 v2] o IH]; cbn.
  - now rewrite Hk.
  - destruct (String.eqb k' k2) eqn:E; cbn.
    + apply String.eqb_eq in E. subst k2. now rewrite Hk.
    + now rewrite IH.
Qed.

(** A required field is stored as the string it was given. *)
Lemma convert_required (field : string) (value : jsstring) :
  In field requiredFields ->
  convert parseInt parseFloat toLowerCase field value = FStr value.
Proof.
  intros [H|[H|[H|[H|[]]]]]; subst field; reflexivity.
Qed.

Lemma assignColumn_truthy (values : list jsstring) (field : string)
  (student : Payload) (column : nat * jsstring) :
  In field requiredFields ->
  Obj.truthy field
             (assignColumn parseInt parseFloat toLowerCase values student column)
  = Obj.truthy field student || fills values field column.
Proof.
  intros Hreq. destruct column as [index header].
  unfold assignColumn, fills; cbn [fst snd].
  destruct (mappedFieldOf header) as [mapped|];
    [|now rewrite orb_false_r].
  destruct (nth_error values index) as [value|]; [|now rewrite orb_false_r].
  destruct (JsString.nonempty value) eqn:Hv;
    [|now rewrite andb_false_r, orb_false_r].
  rewrite andb_true_r. unfold Obj.truthy.
  destruct (String.eqb field mapped) eqn:E.
  - apply String.eqb_eq in E. subst mapped.
    rewrite get_set_same, (convert_required _ _ Hreq), Hv.
    now rewrite orb_true_r.
  - rewrite (get_set_other _ _ _ _ E). now rewrite orb_false_r.
Qed.

Lemma fold_truthy (values : list jsstring) (field : string) :
  In field requiredFields ->
  forall (cols : list (nat * jsstring)) (student : Payload),
    Obj.truthy field
               (fold_left (assignColumn parseInt parseFloat toLowerCase values)
                          cols student)
    = Obj.truthy field student || existsb (fills values field) cols.
Proof.
  intros Hreq. induction cols as [|c cols IH]; intros student; cbn.
  - now rewrite orb_false_r.
  - rewrite IH, (assignColumn_truthy _ _ _ _ Hreq). now rewrite orb_assoc.
Qed.

Lemma in_columns_from (headers : list jsstring) :
  forall (start index : nat) (header : jsstring),
    In (index, header) (combine (seq start (List.length headers)) headers)
    <-> start <= index /\ nth_error headers (index - start) = Some header.
Proof.
  induction headers as [|h hs IH]; intros start index header; cbn.
  - split; [easy|]. intros [_ H]. now destruct (index - start).
  - rewrite IH. split.
    + intros [H|[Hle Hn]].
      * injection H as <- <-. rewrite Nat.sub_diag. now split.
      * split; [lia|]. replace (index - start) with (S (index - S start)) by lia.
        exact Hn.
    + intros [Hle Hn]. destruct (index - start) as [|k] eqn:Hk.
      * left. injection Hn as <-. f_equal. lia.
      * right. split; [lia|]. replace (index - S start) with k by lia.
        exact Hn.
Qed.

Lemma in_columns (headers : list jsstring) (index : nat) (header : jsstring) :
  In (index, header) (columns headers) <-> nth_error headers index = Some header.
Proof.
  unfold columns. rewrite in_columns_from, Nat.sub_0_r.
  split; [now intros [_ H] | intros H; split; [lia | exact H]].
Qed.

Lemma nonempty_false (s : jsstring) : JsString.nonempty s = false <-> s = [].
Proof. destruct s; cbn; split; congruence. Qed.

(** A required field is falsy in the payload exactly when it is empty
    after header mapping. *)
Lemma required_falsy (headers values : list jsstring) (field : string) :
  In field requiredFields ->
  Obj.truthy field (row headers values) = false
  <-> emptyAfterMapping headers values field.
Proof.
  intros Hreq. unfold mapRow. rewrite (fold_truthy _ _ Hreq). cbn [orb].
  change (Obj.truthy field []) with false. cbn [orb].
  split.
  - intros Hex index header value Hh Hm Hv.
    apply nonempty_false.
    destruct (JsString.nonempty value) eqn:E; [|reflexivity].
    assert (Hin : In (index, header) (columns headers)) by now apply in_columns.
    assert (Hf : fills values field (index, header) = true).
    { unfold fills; cbn [fst snd]. rewrite Hm, Hv, E, String.eqb_refl.
      reflexivity. }
    assert (Ht : existsb (fills values field) (columns headers) = true)
      by (apply existsb_exists; eauto).
    congruence.
  - intros Hempty.
    destruct (existsb (fills values field) (columns headers)) eqn:E;
      [|reflexivity].
    apply existsb_exists in E as ([index header] & Hin & Hf).
    apply in_columns in Hin. unfold fills in Hf; cbn [fst snd] in Hf.
    destruct (mappedFieldOf header) as [mapped|] eqn:Hm;
      [|discriminate].
    destruct (nth_error values index) as [value|] eqn:Hv; [|discriminate].
    apply andb_prop in Hf as [Heq Hne]. apply String.eqb_eq in Heq. subst mapped.
    rewrite (Hempty index header value Hin Hm Hv) in Hne. discriminate.
Qed.

Lemma hasRequired_false (student : Payload) :
  hasRequired student = false
  <-> exists field, In field requiredFields /\ Obj.truthy field student = false.
Proof.
  unfold hasRequired, requiredFields. split.
  - intros H.
    destruct (Obj.truthy "name" student) eqn:E1; [|exists "name"%string; cbn; auto].
    destruct (Obj.truthy "email" student) eqn:E2; [|exists "email"%string; cbn; auto].
    destruct (Obj.truthy "student_id" student) eqn:E3;
      [|exists "student_id"%string; cbn; auto].
    destruct (Obj.truthy "department" student) eqn:E4;
      [discriminate|exists "department"%string; cbn; auto 6].
  - intros (field & [H|[H|[H|[H|[]]]]] & Hf); subst field; rewrite Hf;
      now rewrite ?andb_false_r.
Qed.

Lemma parseRows_filter (headers : list jsstring) :
  forall (lines : list jsstring) (students : list Payload),
    parseRows parseInt parseFloat toLowerCase headers lines students
    = students ++ map (fun line => row headers (valuesOf line))
                      (filter (keeps headers) lines).
Proof.
  induction lines as [|line lines IH]; intros students; cbn [parseRows filter].
  - cbn. now rewrite app_nil_r.
  - unfold keepsRow at 1.
    destruct (Nat.ltb (List.length (valuesOf line)) (List.length headers));
      cbn [negb andb].
    + apply IH.
    + destruct (hasRequired (row headers (valuesOf line))).
      * rewrite IH. cbn [map]. now rewrite <- app_assoc.
      * apply IH.
Qed.

Lemma trimEnd_nil (s : jsstring) :
  JsString.trimEnd s = [] <-> blank s = true.
Proof.
  unfold blank. induction s as [|c s IH]; cbn; [tauto|].
  destruct (JsString.trimEnd s) as [|d t].
  - destruct (JsString.is_space c); cbn.
    + split; [intros _; now apply IH | reflexivity].
    + split; discriminate.
  - split; [discriminate|]. intros H. apply andb_prop in H as [_ H].
    apply IH in H. discriminate.
Qed.

Lemma trimStart_blank (s : jsstring) :
  blank (JsString.trimStart s) = blank s.
Proof.
  unfold blank. induction s as [|c s IH]; cbn; [reflexivity|].
  destruct (JsString.is_space c) eqn:E; cbn; [exact IH | now rewrite E].
Qed.

(** Trimming leaves nothing exactly of a string of white space. *)
Lemma trim_nil (s : jsstring) : JsString.trim s = [] <-> blank s = true.
Proof. unfold JsString.trim. now rewrite trimEnd_nil, trimStart_blank. Qed.

Lemma split_nonempty (sep : N) (s : jsstring) : JsString.split sep s <> [].
Proof.
  destruct s as [|a s]; cbn; [discriminate|].
  destruct (N.eqb a sep); [discriminate|].
  destruct (JsString.split sep s); discriminate.
Qed.

(** A line has one cell more than it has separators. *)
Lemma split_length (sep : N) (s : jsstring) :
  List.length (JsString.split sep s) = S (count_occ N.eq_dec s sep).
Proof.
  induction s as [|c s IH]; [reflexivity|]. cbn [JsString.split count_occ].
  pose proof (split_nonempty sep s) as Hne.
  destruct (N.eqb_spec c sep) as [->|Hc].
  - destruct (N.eq_dec sep sep) as [_|H]; [|contradiction].
    cbn [List.length]. now rewrite IH.
  - destruct (N.eq_dec c sep) as [H|_]; [contradiction|].
    destruct (JsString.split sep s) as [|p ps]; [contradiction|].
    cbn [List.length] in *. exact IH.
Qed.

(** C8: the payloads of a parsed upload are those of its data rows, in
    order, without the excluded rows; a row is excluded exactly when it
    has fewer fields than the header row or one of name, email,
    student_id, department is empty after header mapping.  In particular
    a row with an empty name is excluded whatever its other fields, and
    the rows after an excluded row are still processed.  The lines of an
    upload are the pieces between its line feeds that hold more than
    white space; a row has one field more than it has commas, and a field
    is empty exactly when its cell holds white space only. *)
Theorem rows_excluded_exactly (content : jsstring) (students : list Payload) :
  parseCSVContent parseInt parseFloat toLowerCase content = Students students ->
  students
  = map (fun line =>
           mapRow parseInt parseFloat toLowerCase
                  (headersOf toLowerCase (hd [] (linesOf content)))
                  (valuesOf line))
        (filter (keepsRow parseInt parseFloat toLowerCase
                          (headersOf toLowerCase (hd [] (linesOf content))))
                (tl (linesOf content)))
  /\ (forall line : jsstring,
         keepsRow parseInt parseFloat toLowerCase
                  (headersOf toLowerCase (hd [] (linesOf content))) line = false
         <-> (List.length (valuesOf line)
              < List.length (headersOf toLowerCase (hd [] (linesOf content)))
              \/ exists field,
                  In field requiredFields
                  /\ emptyAfterMapping
                       (headersOf toLowerCase (hd [] (linesOf content)))
                       (valuesOf line) field))
  /\ (forall line : jsstring,
         emptyAfterMapping (headersOf toLowerCase (hd [] (linesOf content)))
                           (valuesOf line) "name" ->
         keepsRow parseInt parseFloat toLowerCase
                  (headersOf toLowerCase (hd [] (linesOf content))) line = false)
  /\ (forall line : jsstring,
         In line (linesOf content)
         <-> In line (JsString.split LF content) /\ blank line = false)
  /\ (forall line : jsstring, List.length (valuesOf line) = S (commas line))
  /\ (forall (line : jsstring) (index : nat),
         nth_error (valuesOf line) index = Some []
         <-> exists cell : jsstring,
             nth_error (cellsOf line) index = Some cell /\ blank cell = true).
Proof.
  intros Hparse. unfold parseCSVContent in Hparse. cbv zeta in Hparse.
  destruct (Nat.ltb (List.length (linesOf content)) 2); [discriminate|].
  injection Hparse as <-.
  set (headers := headersOf toLowerCase (hd [] (linesOf content))).
  assert (Hiff : forall line : jsstring,
             keeps headers line = false
             <-> (List.length (valuesOf line) < List.length headers
                  \/ exists field,
                      In field requiredFields
                      /\ emptyAfterMapping headers (valuesOf line) field)).
  { intros line. unfold keepsRow. rewrite andb_false_iff, negb_false_iff.
    rewrite Nat.ltb_lt, hasRequired_false. split.
    - intros [H|(field & Hin & Hf)]; [now left|].
      right. exists field. split; [exact Hin|].
      now apply (required_falsy headers (valuesOf line) field Hin).
    - intros [H|(field & Hin & Hf)]; [now left|].
      right. exists field. split; [exact Hin|].
      now apply (required_falsy headers (valuesOf line) field Hin). }
  split; [|split; [|split; [|split; [|split]]]].
  - now rewrite parseRows_filter.
  - exact Hiff.
  - intros line Hname. apply Hiff. right. exists "name"%string.
    split; [cbn; auto | exact Hname].
  - intros line. unfold linesOf. rewrite filter_In.
    destruct (blank line) eqn:Hb.
    + apply trim_nil in Hb. rewrite Hb. cbn. split; intros [_ H]; discriminate.
    + destruct (JsString.trim line) eqn:Ht; [|cbn; tauto].
      apply trim_nil in Ht. congruence.
  - intros line. unfold valuesOf, cellsOf, commas.
    now rewrite length_map, split_length.
  - intros line index. unfold valuesOf. rewrite nth_error_map.
    destruct (nth_error (cellsOf line) index) as [cell|]; cbn.
    + split.
      * intros H. injection H as H. exists cell. split; [reflexivity|].
        now apply trim_nil.
      * intros (cell' & H & Hb). injection H as <-.
        apply trim_nil in Hb. now rewrite Hb.
    + split; [discriminate | intros (cell & H & _); discriminate].
Qed.

End IngestionTheorems.

(** The theorem of C8 on [sampleUpload]: of its four data rows the first
    and the last are kept. *)
Lemma rows_excluded_exactly_witness :
  map (Obj.get "name")
      (map (fun line =>
              mapRow Digits.parse Digits.parse Letters.toLowerCase
                     (headersOf Letters.toLowerCase (hd [] (linesOf sampleUpload)))
                     (valuesOf line))
           (filter (keepsRow Digits.parse Digits.parse Letters.toLowerCase
                             (headersOf Letters.toLowerCase
                                        (hd [] (linesOf sampleUpload))))
                   (tl (linesOf sampleUpload))))
  = [Some (FStr (JsString.of_string "Asha"));
     Some (FStr (JsString.of_string "Dee"))].
Proof.
  destruct (rows_excluded_exactly Digits.parse Digits.parse Letters.toLowerCase
              sampleUpload _ eq_refl) as (H & _).
  rewrite <- H. reflexivity.
Defined.

(** An upload with a name of no-break spaces and a column headed
    [constructor]: the row of no-break spaces is excluded, since its name
    is empty once trimmed, and the payload of the other row holds the cell
    of the inherited column under the key the constructor function prints
    as. *)
Example odd_upload_parsed :
  parseCSVContent Digits.parse Digits.parse Letters.toLowerCase oddUpload
  = Students
      [[("name"%string, FStr (JsString.of_string "Dee"));
        ("email"%string, FStr (JsString.of_string "dee@example.org"));
        ("student_id"%string, FStr (JsString.of_string "S4"));
        ("department"%string, FStr (JsString.of_string "Maths"));
        ("function Object() { [native code] }"%string,
         FStr (JsString.of_string "x"))]].
Proof. vm_compute. reflexivity. Qed.

(** * Further properties of the calculators and of the aggregator *)

Section AdditiveRisks.

Open Scope float_scope.

Lemma financialValues_inUnit : forallb inUnit financialValues = true.
Proof. vm_compute. reflexivity. Qed.

Lemma demographicValues_below_cap :
  forallb (fun r => inUnit r && (r <=? 0.2 + 0.1 + 0.3 + 0.1) && (r <? 1))
          demographicValues = true.
Proof. vm_compute. reflexivity. Qed.

(** X1: the two additive calculators stay in [0,1] for every input.  The
    financial cap is reached (fee default, no scholarship and a low income
    add up to 1.1, returned as 1.0).  The demographic risk never exceeds
    the sum 0.2 + 0.1 + 0.3 + 0.1 as binary64 addition gives it, which is
    0.7000000000000001, a little more than 0.7, and is what [riskiest]
    gets; it is below 1, so the demographic cap never applies. *)
Theorem additive_risks_in_unit_interval :
  (forall (fd sc : bool) (fi : optnum),
      (0 <=? calculateFinancialRisk fd sc fi) = true
      /\ (calculateFinancialRisk fd sc fi <=? 1) = true)
  /\ (forall s : Student,
         (0 <=? calculateDemographicRisk s) = true
         /\ (calculateDemographicRisk s <=? 0.2 + 0.1 + 0.3 + 0.1) = true
         /\ (calculateDemographicRisk s <? 1) = true)
  /\ 0 + 0.6 + 0.2 + 0.3 = 1.1
  /\ calculateFinancialRisk true false (Num 100000) = 1
  /\ calculateDemographicRisk riskiest = 0.2 + 0.1 + 0.3 + 0.1
  /\ 0.2 + 0.1 + 0.3 + 0.1 = 0.7000000000000001
  /\ (calculateDemographicRisk riskiest <=? 0.7) = false.
Proof.
  split; [|split; [|split; [|split; [|split; [|split]]]]].
  - intros fd sc fi.
    pose proof financialValues_inUnit as H. rewrite forallb_forall in H.
    specialize (H _ (calculateFinancialRisk_values fd sc fi)).
    unfold inUnit in H. now apply andb_prop in H.
  - intros s.
    pose proof demographicValues_below_cap as H. rewrite forallb_forall in H.
    specialize (H _ (calculateDemographicRisk_values s)). cbv beta in H.
    apply andb_prop in H as [H H3]. apply andb_prop in H as [H H2].
    unfold inUnit in H. apply andb_prop in H as [H0 _]. now repeat split.
  - vm_compute; reflexivity.
  - vm_compute; reflexivity.
  - vm_compute; reflexivity.
  - vm_compute; reflexivity.
  - vm_compute; reflexivity.
Qed.

(** X2: a fee default never lowers the financial risk and a scholarship
    never raises it, whatever the family income; hostel accommodation and
    an education gap never lower the demographic risk. *)
Theorem risk_flags_are_monotone :
  (forall (sc : bool) (fi : optnum),
      (calculateFinancialRisk false sc fi <=? calculateFinancialRisk true sc fi) = true)
  /\ (forall (fd : bool) (fi : optnum),
         (calculateFinancialRisk fd true fi <=? calculateFinancialRisk fd false fi) = true)
  /\ (forall (i : string) (a c g : float) (fd : bool) (d : float) (sc : bool)
             (e sem : float) (fi dist : optnum) (gap : bool),
         (calculateDemographicRisk
            (mkStudent i a c g fd d sc e sem fi dist false gap)
          <=? calculateDemographicRisk
                (mkStudent i a c g fd d sc e sem fi dist true gap)) = true)
  /\ (forall (i : string) (a c g : float) (fd : bool) (d : float) (sc : bool)
             (e sem : float) (fi dist : optnum) (hostel : bool),
         (calculateDemographicRisk
            (mkStudent i a c g fd d sc e sem fi dist hostel false)
          <=? calculateDemographicRisk
                (mkStudent i a c g fd d sc e sem fi dist hostel true)) = true).
Proof.
  split; [|split; [|split]].
  - intros sc fi. unfold calculateFinancialRisk, incomeTerm; cbv zeta.
    destruct fi as [ | |x]; cbn [OptNum.not_undefined OptNum.to_number];
      destruct sc; cbn [negb];
      repeat match goal with |- context [JS.lt ?a ?b] => destruct (JS.lt a b) end;
      vm_compute; reflexivity.
  - intros fd fi. unfold calculateFinancialRisk, incomeTerm; cbv zeta.
    destruct fi as [ | |x]; cbn [OptNum.not_undefined OptNum.to_number];
      destruct fd; cbn [negb];
      repeat match goal with |- context [JS.lt ?a ?b] => destruct (JS.lt a b) end;
      vm_compute; reflexivity.
  - intros. unfold calculateDemographicRisk, distanceTerm; cbv zeta.
    cbn [distance_from_home hostel_accommodation previous_education_gap semester].
    destruct (OptNum.truthy dist && JS.gt (OptNum.to_number dist) 500), gap,
      (JS.gt sem 6); vm_compute; reflexivity.
  - intros. unfold calculateDemographicRisk, distanceTerm; cbv zeta.
    cbn [distance_from_home hostel_accommodation previous_education_gap semester].
    destruct (OptNum.truthy dist && JS.gt (OptNum.to_number dist) 500), hostel,
      (JS.gt sem 6); vm_compute; reflexivity.
Qed.

End AdditiveRisks.

Section OtherSteps.

Open Scope float_scope.

(** Facts about the thresholds [t1 >= t2 >= ...] at [a], then the cases. *)
Local Ltac bands :=
  repeat match goal with
         | H : ?b = ?b -> _ |- _ => specialize (H eq_refl)
         | H : true = false -> _ |- _ => clear H
         end;
  try discriminate;
  repeat match goal with |- _ /\ _ => split end; intros;
  repeat match goal with
         | H : JS.lt _ _ = true |- _ = _ => apply lt_not_ge in H
         end;
  try reflexivity; try congruence; tauto.

Lemma academic_bands (c s : float) :
  ((c + s) / 2 <=? (c + s) / 2) = true ->
  academicStep ((c + s) / 2) (calculateAcademicRisk c s).
Proof.
  intros Hr. unfold calculateAcademicRisk; cbv zeta.
  generalize dependent ((c + s) / 2). intros a Hr.
  pose proof (not_ge_lt 8 a Hr eq_refl) as N8.
  pose proof (not_ge_lt 7 a Hr eq_refl) as N7.
  pose proof (not_ge_lt 6 a Hr eq_refl) as N6.
  pose proof (not_ge_lt 5 a Hr eq_refl) as N5.
  pose proof (ge_weaken 7 8 a eq_refl) as M87.
  pose proof (ge_weaken 6 7 a eq_refl) as M76.
  pose proof (ge_weaken 5 6 a eq_refl) as M65.
  unfold academicStep.
  destruct (JS.ge a 8) eqn:G8, (JS.ge a 7) eqn:G7,
           (JS.ge a 6) eqn:G6, (JS.ge a 5) eqn:G5; bands.
Qed.

Lemma academic_mono (a1 a2 : float) :
  (a1 <=? a2) = true ->
  JS.ge ((if JS.ge a1 8 then 0.1 else if JS.ge a1 7 then 0.2
          else if JS.ge a1 6 then 0.4 else if JS.ge a1 5 then 0.6 else 0.8))
        ((if JS.ge a2 8 then 0.1 else if JS.ge a2 7 then 0.2
          else if JS.ge a2 6 then 0.4 else if JS.ge a2 5 then 0.6 else 0.8))
  = true.
Proof.
  intros H12.
  pose proof (ge_mono 8 a1 a2 H12) as M8. pose proof (ge_mono 7 a1 a2 H12) as M7.
  pose proof (ge_mono 6 a1 a2 H12) as M6. pose proof (ge_mono 5 a1 a2 H12) as M5.
  destruct (JS.ge a1 8), (JS.ge a1 7), (JS.ge a1 6), (JS.ge a1 5);
    try (rewrite (M8 eq_refl)); try (rewrite (M7 eq_refl));
    try (rewrite (M6 eq_refl)); try (rewrite (M5 eq_refl));
    destruct (JS.ge a2 8), (JS.ge a2 7), (JS.ge a2 6), (JS.ge a2 5);
    reflexivity.
Qed.

(** X3: the academic risk is the step function of the GPA average
    (cgpa + sgpa) / 2 as computed in floating point: >= 8 gives 0.1, >= 7
    gives 0.2, >= 6 gives 0.4, >= 5 gives 0.6, below 5 gives 0.8; and it
    does not increase with the average. *)
Theorem academic_risk_step (c1 s1 c2 s2 : float) :
  ((c1 + s1) / 2 <=? (c2 + s2) / 2) = true ->
  academicStep ((c1 + s1) / 2) (calculateAcademicRisk c1 s1)
  /\ academicStep ((c2 + s2) / 2) (calculateAcademicRisk c2 s2)
  /\ JS.ge (calculateAcademicRisk c1 s1) (calculateAcademicRisk c2 s2) = true.
Proof.
  intros H12.
  split; [apply academic_bands; exact (FloatOrder.leb_refl_l _ _ H12)|].
  split; [apply academic_bands; exact (FloatOrder.leb_refl_r _ _ H12)|].
  unfold calculateAcademicRisk; cbv zeta.
  exact (academic_mono _ _ H12).
Qed.

(** The theorem on the averages 5.5 and 7.5; the average of 5.9 and 6.1
    is 6 and falls in the 0.4 band. *)
Lemma academic_risk_step_witness :
  calculateAcademicRisk 5 6 = 0.6
  /\ calculateAcademicRisk 7.2 7.8 = 0.2
  /\ JS.ge (calculateAcademicRisk 5 6) (calculateAcademicRisk 7.2 7.8) = true.
Proof.
  destruct (academic_risk_step 5 6 7.2 7.8 eq_refl) as (B1 & B2 & M).
  split; [|split].
  - destruct B1 as (_ & _ & _ & K & _). exact (K eq_refl eq_refl).
  - destruct B2 as (_ & K & _). exact (K eq_refl eq_refl).
  - exact M.
Defined.

Lemma engagement_bands (n : float) :
  (n <=? n) = true -> engagementStep n (calculateEngagementRisk n).
Proof.
  intros Hr.
  pose proof (not_ge_lt 3 n Hr eq_refl) as N3.
  pose proof (not_ge_lt 2 n Hr eq_refl) as N2.
  pose proof (not_ge_lt 1 n Hr eq_refl) as N1.
  pose proof (ge_weaken 2 3 n eq_refl) as M32.
  pose proof (ge_weaken 1 2 n eq_refl) as M21.
  unfold engagementStep, calculateEngagementRisk.
  destruct (JS.ge n 3) eqn:G3, (JS.ge n 2) eqn:G2, (JS.ge n 1) eqn:G1; bands.
Qed.

(** X4: the engagement risk is the step function of the extracurricular
    count (>= 3 gives 0.1, >= 2 gives 0.2, >= 1 gives 0.3, below 1 gives
    0.5) and does not increase with the count. *)
Theorem engagement_risk_step (n1 n2 : float) :
  (n1 <=? n2) = true ->
  engagementStep n1 (calculateEngagementRisk n1)
  /\ engagementStep n2 (calculateEngagementRisk n2)
  /\ JS.ge (calculateEngagementRisk n1) (calculateEngagementRisk n2) = true.
Proof.
  intros H12.
  split; [apply engagement_bands; exact (FloatOrder.leb_refl_l _ _ H12)|].
  split; [apply engagement_bands; exact (FloatOrder.leb_refl_r _ _ H12)|].
  pose proof (ge_mono 3 n1 n2 H12) as M3. pose proof (ge_mono 2 n1 n2 H12) as M2.
  pose proof (ge_mono 1 n1 n2 H12) as M1.
  unfold calculateEngagementRisk.
  destruct (JS.ge n1 3), (JS.ge n1 2), (JS.ge n1 1);
    try (rewrite (M3 eq_refl)); try (rewrite (M2 eq_refl));
    try (rewrite (M1 eq_refl));
    destruct (JS.ge n2 3), (JS.ge n2 2), (JS.ge n2 1);
    reflexivity.
Qed.

(** The theorem on the counts 0 and 2. *)
Lemma engagement_risk_step_witness :
  calculateEngagementRisk 0 = 0.5
  /\ calculateEngagementRisk 2 = 0.2
  /\ JS.ge (calculateEngagementRisk 0) (calculateEngagementRisk 2) = true.
Proof.
  destruct (engagement_risk_step 0 2 eq_refl) as (B1 & B2 & M).
  split; [|split].
  - destruct B1 as (_ & _ & _ & K & _). exact (K eq_refl).
  - destruct B2 as (_ & K & _). exact (K eq_refl eq_refl).
  - exact M.
Defined.

End OtherSteps.

Section SteadyAttenders.

Open Scope float_scope.

Lemma steady_attendance_values (a : float) :
  JS.ge a 80 = true -> In (calculateAttendanceRisk a) steadyAttendanceValues.
Proof.
  intros H. unfold calculateAttendanceRisk. rewrite H.
  destruct (JS.ge a 90); cbn; auto.
Qed.

Lemma steady_reachable (s : Student) :
  JS.ge (attendance_percentage s) 80 = true -> In (tallyOf s) steady6.
Proof.
  intros Ha.
  unfold tallyOf, riskScoreOf, weightedScore, weightedCents, predictDropoutRisk;
    cbn [prediction_factors attendance_impact academic_impact financial_impact
         behavioral_impact engagement_impact].
  pose proof (steady_attendance_values _ Ha) as H1.
  pose proof (calculateAcademicRisk_values (cgpa s) (sgpa s)) as H2.
  pose proof (calculateFinancialRisk_values (fee_default s) (scholarship s)
                (family_income s)) as H3.
  pose proof (calculateBehavioralRisk_values (disciplinary_actions s)) as H4.
  pose proof (calculateEngagementRisk_values (extracurriculars s)) as H5.
  pose proof (calculateDemographicRisk_values s) as H6.
  set (r1 := calculateAttendanceRisk _) in *.
  set (r2 := calculateAcademicRisk _ _) in *.
  set (r3 := calculateFinancialRisk _ _ _) in *.
  set (r4 := calculateBehavioralRisk _) in *.
  set (r5 := calculateEngagementRisk _) in *.
  set (r6 := calculateDemographicRisk _) in *.
  assert (T1 : In (firstTerm r1) steady1) by (apply dedup_In; now apply in_map).
  pose proof (extend_In weights.academic 20 _ _ _ _ T1 H2) as T2.
  pose proof (extend_In weights.financial 15 _ _ _ _ T2 H3) as T3.
  pose proof (extend_In weights.behavioral 15 _ _ _ _ T3 H4) as T4.
  pose proof (extend_In weights.engagement 10 _ _ _ _ T4 H5) as T5.
  exact (extend_In weights.demographics 15 _ _ _ _ T5 H6).
Qed.

Lemma steady6_below_high : forallb belowHigh steady6 = true.
Proof. vm_compute. reflexivity. Qed.

(** X5: a student whose risk level is ["high"] has an attendance that is
    not 80 or more: with an attendance risk of 0.1 or 0.3 the weighted
    score stays below 0.70 whatever the other five calculators return. *)
Theorem high_level_needs_low_attendance (s : Student) :
  risk_level (predictDropoutRisk s) = high ->
  JS.ge (attendance_percentage s) 80 = false.
Proof.
  intros Hhigh. destruct (JS.ge (attendance_percentage s) 80) eqn:Ha; [|reflexivity].
  pose proof steady6_below_high as H. rewrite forallb_forall in H.
  specialize (H _ (steady_reachable s Ha)).
  unfold belowHigh in H. apply andb_prop in H as [_ H].
  change (risk_level (predictDropoutRisk s)) with (levelOf (riskScoreOf s)) in Hhigh.
  cbn [tallyOf scoreSoFar] in H. rewrite Hhigh in H. discriminate H.
Qed.

(** The theorem on [riskiest], whose attendance is 40. *)
Lemma high_level_needs_low_attendance_witness :
  JS.ge (attendance_percentage riskiest) 80 = false.
Proof. exact (high_level_needs_low_attendance riskiest eq_refl). Defined.

End SteadyAttenders.

(** * Further properties of the request handler *)

Section HandlerShape.

Context {Store : Type}.
Variable select_unscored : Store -> Store * QueryResult.
Variable select_by_ids : jsval -> Store -> Store * QueryResult.
Variable upsert : list Update -> Store -> Store * option StoreError.

Local Abbreviation handle := (serve select_unscored select_by_ids upsert).
Local Abbreviation choose := (selectStudents select_unscored select_by_ids).

(** What the selection phase leaves behind, from an empty trace. *)
Lemma selectStudents_cases (ids flag : jsval) (st : Store) :
  (choose ids flag {| store := st; trace := [] |}
   = ({| store := st; trace := [] |}, NoneSpecified)
   /\ JsVal.truthy flag = false
   /\ JsVal.truthy ids && JsVal.length_positive ids = false)
  \/ exists (st' : Store) (r : QueryResult),
      (JsVal.truthy flag = true \/ JsVal.truthy ids && JsVal.length_positive ids = true)
      /\ (st', r) = (if JsVal.truthy flag then select_unscored st
                     else select_by_ids ids st)
      /\ choose ids flag {| store := st; trace := [] |}
         = ({| store := st';
               trace := [{| call := selectOf ids flag;
                            failed := match error r with
                                      | Some _ => true | None => false
                                      end |}] |},
            studentsOf r).
Proof.
  unfold selectStudents, run_select, selectOf. cbn [store trace app].
  destruct (JsVal.truthy flag) eqn:Hf.
  - right. destruct (select_unscored st) as [st' r]. exists st', r. auto.
  - destruct (JsVal.truthy ids && JsVal.length_positive ids) eqn:Hi.
    + right. destruct (select_by_ids ids st) as [st' r]. exists st', r. auto.
    + left. auto.
Qed.



(** X6: the handler reads at most once and writes only after a successful
    read.  Either it makes no store call at all and leaves the store as it
    was (preflight, unreadable body, no selection mode: the answer is not a
    summary), or its trace is one select followed by upserts only; the
    select is the null-risk-score one when processNewStudents is truthy
    and the one by the studentIds given otherwise; when the select fails
    nothing is written and the status is 500, and when it succeeds the
    status is 200; no upsert ever carries an empty batch. *)
Theorem store_read_once_then_written (req : Request) (st : Store) :
  (trace (snd (handle req st)) = []
   /\ store (snd (handle req st)) = st
   /\ forall msg p n, body (fst (handle req st)) <> SummaryBody msg p n)
  \/ exists (ids flag : jsval) (selectFailed : bool)
            (batches : list (list Update * bool)),
      json req = Fields ids flag
      /\ trace (snd (handle req st))
         = {| call := selectOf ids flag; failed := selectFailed |}
             :: map upsertEvent batches
      /\ (selectFailed = true ->
          batches = [] /\ status (fst (handle req st)) = 500)
      /\ (selectFailed = false -> status (fst (handle req st)) = 200)
      /\ Forall (fun b => fst b <> []) batches.
Proof.
  unfold serve.
  destruct (String.eqb (method req) "OPTIONS").
  { left. cbn. repeat split; discriminate. }
  destruct (json req) as [thrown|ids flag] eqn:Hj.
  { left. cbn. repeat split; discriminate. }
  destruct (selectStudents_cases ids flag st) as [(Hs & _ & _)|(st' & r & _ & _ & Hs)];
    rewrite Hs.
  { left. cbn. repeat split; discriminate. }
  right. exists ids, flag. unfold studentsOf.
  destruct (error r) as [e|] eqn:He.
  - exists true, []. cbn. repeat split; auto; discriminate.
  - set (students := match data r with Some l => l | None => [] end).
    match goal with |- context [predictAndPersist upsert students ?w] =>
      destruct (predictAndPersist_spec upsert students w)
        as (batches & Htr & _ & Hlen & _ & _ & Hresp)
    end.
    exists false, batches. rewrite Htr, Hresp. cbn.
    repeat split; auto; try discriminate.
    eapply Forall_impl; [|exact Hlen]. cbn.
    intros [u ok] [H1 _] Hu. cbn in *. subst u. cbn in H1. lia.
Qed.

(** X7: a failing select ends the run with status 500 and the message of
    the store's error, or ["Failed to process predictions"] when the error
    has no message or an empty one; rows returned alongside the error are
    ignored and nothing is written. *)
Theorem failed_select_gives_500 (req : Request) (st : Store)
  (ids flag : jsval) (e : StoreError) :
  String.eqb (method req) "OPTIONS" = false ->
  json req = Fields ids flag ->
  JsVal.truthy flag = true \/ JsVal.truthy ids && JsVal.length_positive ids = true ->
  error (snd (if JsVal.truthy flag then select_unscored st
              else select_by_ids ids st)) = Some e ->
  handle req st
  = ({| status := 500;
        body := ErrorBody (match message e with
                           | Some (String c m) => String c m
                           | _ => "Failed to process predictions"
                           end) |},
     {| store := fst (if JsVal.truthy flag then select_unscored st
                      else select_by_ids ids st);
        trace := [{| call := selectOf ids flag; failed := true |}] |}).
Proof.
  intros Hm Hj Hsel He. unfold serve. rewrite Hm, Hj.
  destruct (selectStudents_cases ids flag st)
    as [(_ & Hf & Hi)|(st' & r & _ & Hq & Hs)].
  - destruct Hsel; congruence.
  - rewrite Hs. rewrite <- Hq in He |- *. cbn [fst snd] in *.
    unfold studentsOf. rewrite He. unfold errorMessage.
    destruct (message e) as [[|c m]|]; reflexivity.
Qed.



(** X9: an empty or a missing (null) result of the null-risk-score
    selection is no error: the answer is 200 with the message
    ["Successfully processed 0 students"] and both counts 0, and nothing
    is written. *)
Theorem nothing_to_score (req : Request) (st : Store) (ids flag : jsval) :
  String.eqb (method req) "OPTIONS" = false ->
  json req = Fields ids flag ->
  JsVal.truthy flag = true ->
  error (snd (select_unscored st)) = None ->
  data (snd (select_unscored st)) = None \/ data (snd (select_unscored st)) = Some [] ->
  handle req st
  = ({| status := 200;
        body := SummaryBody "Successfully processed 0 students" 0 0 |},
     {| store := fst (select_unscored st);
        trace := [{| call := SelectUnscored; failed := false |}] |}).
Proof.
  intros Hm Hj Hf He Hd. unfold serve, selectStudents, run_select.
  rewrite Hm, Hj, Hf. cbn [store trace app].
  destruct (select_unscored st) as [st' r]. cbn [fst snd] in *.
  unfold studentsOf. rewrite He.
  destruct Hd as [-> | ->]; reflexivity.
Qed.

End HandlerShape.

Section MoreScriptedRuns.

(** The theorem of X7 on a store whose select fails without a message. *)
Lemma failed_select_gives_500_witness :
  fst (serve (fun st : Scripted.Store =>
                (st, {| data := Some (Scripted.unscored st);
                        error := Some {| message := None |} |}))
             Scripted.select_by_ids Scripted.upsert
             (Scripted.post VUndefined (VBool true)) Scripted.twoStudents)
  = {| status := 500; body := ErrorBody "Failed to process predictions" |}.
Proof.
  exact (f_equal fst
           (failed_select_gives_500
              (fun st : Scripted.Store =>
                 (st, {| data := Some (Scripted.unscored st);
                         error := Some {| message := None |} |}))
              Scripted.select_by_ids Scripted.upsert
              (Scripted.post VUndefined (VBool true)) Scripted.twoStudents
              VUndefined (VBool true) {| message := None |}
              eq_refl eq_refl (or_introl eq_refl) eq_refl)).
Defined.


(** The theorem of X9 on a store without unscored students. *)
Lemma nothing_to_score_witness :
  Scripted.serve (Scripted.post VUndefined (VBool true))
                 {| Scripted.unscored := []; Scripted.script := [] |}
  = ({| status := 200;
        body := SummaryBody "Successfully processed 0 students" 0 0 |},
     {| store := {| Scripted.unscored := []; Scripted.script := [] |};
        trace := [{| call := SelectUnscored; failed := false |}] |}).
Proof.
  exact (nothing_to_score
           Scripted.select_unscored Scripted.select_by_ids Scripted.upsert
           (Scripted.post VUndefined (VBool true))
           {| Scripted.unscored := []; Scripted.script := [] |}
           VUndefined (VBool true) eq_refl eq_refl eq_refl eq_refl
           (or_intror eq_refl)).
Defined.

End MoreScriptedRuns.

(** * Further properties of the upload normaliser *)

Section Payloads.

Variable parseInt : jsstring -> float.
Variable parseFloat : jsstring -> float.
Variable toLowerCase : jsstring -> jsstring.

Local Abbreviation payload := (mapRow parseInt parseFloat toLowerCase).
Local Abbreviation converted := (convert parseInt parseFloat toLowerCase).

Lemma combine_app_same {A B : Type} (l1 l1' : list A) (l2 l2' : list B) :
  List.length l1 = List.length l2 ->
  combine (l1 ++ l1') (l2 ++ l2') = combine l1 l2 ++ combine l1' l2'.
Proof.
  revert l2. induction l1 as [|a l1 IH]; intros [|b l2] Hlen;
    try discriminate; [reflexivity|].
  cbn. f_equal. apply IH. now injection Hlen.
Qed.

Lemma columns_snoc (headers : list jsstring) (header : jsstring) :
  columns (headers ++ [header])
  = columns headers ++ [(List.length headers, header)].
Proof.
  unfold columns. rewrite length_app. cbn [List.length].
  rewrite seq_app. cbn [seq Nat.add].
  rewrite combine_app_same by now rewrite length_seq.
  reflexivity.
Qed.

Lemma mapRow_snoc (headers values : list jsstring) (header : jsstring) :
  payload (headers ++ [header]) values
  = assignColumn parseInt parseFloat toLowerCase values (payload headers values)
                 (List.length headers, header).
Proof. unfold mapRow. now rewrite columns_snoc, fold_left_app. Qed.

Lemma filledAt_snoc (headers values : list jsstring) (header : jsstring)
  (field : string) (index : nat) (value : jsstring) :
  filledAt (headers ++ [header]) values field index value
  <-> filledAt headers values field index value
      \/ (index = List.length headers
          /\ mappedFieldOf header = Some field
          /\ nth_error values index = Some value /\ value <> []).
Proof.
  unfold filledAt. split.
  - intros (h & Hh & Hm & Hv & Hne).
    destruct (Nat.lt_ge_cases index (List.length headers)) as [Hlt|Hge].
    + left. exists h. rewrite nth_error_app1 in Hh by assumption. auto.
    + right. rewrite nth_error_app2 in Hh by assumption.
      destruct (index - List.length headers) as [|k] eqn:Hk.
      * injection Hh as <-. repeat split; auto. lia.
      * now destruct k.
  - intros [(h & Hh & Hm & Hv & Hne)|(-> & Hm & Hv & Hne)].
    + exists h. repeat split; auto.
      rewrite nth_error_app1; [assumption|].
      apply nth_error_Some. congruence.
    + exists header. repeat split; auto.
      rewrite nth_error_app2, Nat.sub_diag by lia. reflexivity.
Qed.

Lemma filledAt_bound (headers values : list jsstring) (field : string)
  (index : nat) (value : jsstring) :
  filledAt headers values field index value -> index < List.length headers.
Proof.
  intros (h & Hh & _). apply nth_error_Some. congruence.
Qed.

(** What a payload holds under [field]: the converted value of the last
    non-empty column mapped to it, if there is one. *)
Lemma payload_field (headers values : list jsstring) (field : string) :
  match Obj.get field (payload headers values) with
  | Some v =>
      exists (index : nat) (value : jsstring),
        filledAt headers values field index value
        /\ v = converted field value
        /\ forall (index' : nat) (value' : jsstring),
            filledAt headers values field index' value' -> index' <= index
  | None =>
      forall (index : nat) (value : jsstring),
        ~ filledAt headers values field index value
  end.
Proof.
  induction headers as [|header headers IH] using rev_ind.
  - cbn. intros index value (h & Hh & _). now destruct index.
  - rewrite mapRow_snoc. unfold assignColumn.
    set (n := List.length headers).
    assert (Hkeep :
      (forall value, ~ (mappedFieldOf header = Some field
                        /\ nth_error values n = Some value
                        /\ value <> [])) ->
      match Obj.get field (payload headers values) with
      | Some v =>
          exists (index : nat) (value : jsstring),
            filledAt (headers ++ [header]) values field index value
            /\ v = converted field value
            /\ forall (index' : nat) (value' : jsstring),
                filledAt (headers ++ [header]) values field index' value' ->
                index' <= index
      | None =>
          forall (index : nat) (value : jsstring),
            ~ filledAt (headers ++ [header]) values field index value
      end).
    { intros Hno. destruct (Obj.get field (payload headers values)) as [v|].
      - destruct IH as (index & value & Hf & Hv & Hmax).
        exists index, value. repeat split; auto.
        + apply filledAt_snoc. now left.
        + intros index' value' Hf'. apply filledAt_snoc in Hf' as [Hf'|(-> & H')].
          * exact (Hmax _ _ Hf').
          * exfalso. exact (Hno _ H').
      - intros index value Hf. apply filledAt_snoc in Hf as [Hf|(-> & H')].
        + exact (IH _ _ Hf).
        + exact (Hno _ H'). }
    destruct (mappedFieldOf header) as [mapped|] eqn:Hm.
    2:{ apply Hkeep. intros value (H & _). discriminate. }
    destruct (nth_error values n) as [value|] eqn:Hv.
    2:{ apply Hkeep. intros value (_ & H & _). discriminate. }
    destruct (JsString.nonempty value) eqn:Hne.
    2:{ apply Hkeep. intros value' (_ & H & Hne').
        injection H as <-. apply nonempty_false in Hne. contradiction. }
    destruct (String.eqb field mapped) eqn:E.
    + apply String.eqb_eq in E. subst mapped. rewrite get_set_same.
      exists n, value. repeat split.
      * apply filledAt_snoc. right. repeat split; auto.
        intros ->. discriminate.
      * intros index' value' Hf'. apply filledAt_bound in Hf'.
        rewrite length_app in Hf'. cbn in Hf'. fold n in Hf'. lia.
    + rewrite (get_set_other _ _ _ _ E). apply Hkeep.
      intros value' (H & _). injection H as ->.
      now rewrite String.eqb_refl in E.
Qed.


Lemma orZero_not_nan (x : float) : is_nan (orZero x) = false.
Proof.
  unfold orZero, JS.truthy.
  destruct (is_zero x); cbn; [reflexivity|].
  destruct (is_nan x) eqn:E; cbn; [reflexivity | exact E].
Qed.

Lemma lookupHeader_target (table : list (string * string))
  (header : jsstring) (field : string) :
  lookupHeader table header = Some field -> In field (map snd table).
Proof.
  induction table as [|[k f] table IH]; cbn; [discriminate|].
  destruct (JsString.eqb header (JsString.of_string k)).
  - intros H. injection H as ->. now left.
  - intros H. right. now apply IH.
Qed.

Lemma lookupHeader_source (table : list (string * string))
  (header : jsstring) (field : string) :
  lookupHeader table header = Some field ->
  exists k : string,
    In (k, field) table /\ JsString.eqb header (JsString.of_string k) = true.
Proof.
  induction table as [|[k f] table IH]; cbn; [discriminate|].
  destruct (JsString.eqb header (JsString.of_string k)) eqn:E.
  - intros H. injection H as ->. exists k. auto.
  - intros H. destruct (IH H) as (k' & Hin & Hk). exists k'. auto.
Qed.

Lemma lookupHeader_app (t1 t2 : list (string * string)) (header : jsstring) :
  lookupHeader (t1 ++ t2) header
  = match lookupHeader t1 header with
    | Some field => Some field
    | None => lookupHeader t2 header
    end.
Proof.
  induction t1 as [|[k f] t1 IH]; cbn; [reflexivity|].
  now destruct (JsString.eqb header (JsString.of_string k)).
Qed.

Lemma eqb_eq (a b : jsstring) : JsString.eqb a b = true <-> a = b.
Proof.
  revert b. induction a as [|x a IH]; intros [|y b]; cbn;
    try (split; [discriminate | congruence]); [tauto|].
  rewrite andb_true_iff, N.eqb_eq, IH. split.
  - now intros [-> ->].
  - intros H. injection H as -> ->. auto.
Qed.

(** A non-empty cell of a mapped column is converted to a value that fits
    the column. *)
Lemma gender_fits (value : jsstring) :
  fits "gender"
       (FStr (if JsString.includes genders value
              then value else JsString.of_string "other"))
  = true.
Proof.
  destruct (JsString.includes genders value) eqn:E; [|reflexivity].
  unfold fits. rewrite E. unfold genders, JsString.includes in E.
  cbn [map existsb] in E.
  destruct (JsString.eqb value (JsString.of_string "male")) eqn:E1;
    [apply eqb_eq in E1; subst; reflexivity|].
  destruct (JsString.eqb value (JsString.of_string "female")) eqn:E2;
    [apply eqb_eq in E2; subst; reflexivity|].
  destruct (JsString.eqb value (JsString.of_string "other")) eqn:E3;
    [apply eqb_eq in E3; subst; reflexivity|].
  discriminate E.
Qed.

Lemma convert_fits (field : string) (value : jsstring) :
  In field (map snd (headerMap ++ inherited)) ->
  JsString.nonempty value = true ->
  fits field (converted field value) = true.
Proof.
  intros Hin Hne. cbn in Hin.
  repeat (destruct Hin as [<-|Hin]); try contradiction;
    try (change (negb (is_nan (orZero (parseInt value))) = true);
         now rewrite orZero_not_nan);
    try (change (negb (is_nan (orZero (parseFloat value))) = true);
         now rewrite orZero_not_nan);
    try (change (JsString.nonempty value && true = true); now rewrite Hne);
    try reflexivity;
    try apply gender_fits.
Qed.

(** X11: every payload of a parsed upload holds its four required fields
    as non-empty strings, and whatever it holds is held under a field of
    the header table, or under the key an inherited property prints as,
    with a value that fits: numeric columns hold numbers that are never
    NaN (an unreadable number is stored as 0), flag columns hold
    booleans, gender is one of male, female, other, every other key holds
    a non-empty string.  When no header of the upload names an inherited
    property, every key is a field of the header table. *)
Theorem payloads_are_well_typed (content : jsstring) (students : list Payload)
  (student : Payload) :
  parseCSVContent parseInt parseFloat toLowerCase content = Students students ->
  In student students ->
  (forall field : string,
      In field requiredFields ->
      exists s : jsstring, Obj.get field student = Some (FStr s) /\ s <> [])
  /\ (forall (field : string) (v : FieldValue),
         Obj.get field student = Some v ->
         In field (map snd (headerMap ++ inherited)) /\ fits field v = true)
  /\ ((forall property : string,
          In property (map fst inherited) ->
          ~ In (JsString.of_string property)
               (headersOf toLowerCase (hd [] (linesOf content)))) ->
      forall (field : string) (v : FieldValue),
        Obj.get field student = Some v -> In field (map snd headerMap)).
Proof.
  intros Hparse Hin. unfold parseCSVContent in Hparse. cbv zeta in Hparse.
  destruct (Nat.ltb (List.length (linesOf content)) 2); [discriminate|].
  injection Hparse as <-. rewrite parseRows_filter in Hin. cbn [app] in Hin.
  apply in_map_iff in Hin as (line & <- & Hline).
  apply filter_In in Hline as [_ Hkeep]. unfold keepsRow in Hkeep.
  apply andb_prop in Hkeep as [_ Hreq].
  set (headers := headersOf toLowerCase (hd [] (linesOf content))) in *.
  assert (Hfit : forall (field : string) (v : FieldValue),
             Obj.get field (payload headers (valuesOf line)) = Some v ->
             exists (header value : jsstring),
               In header headers
               /\ mappedFieldOf header = Some field
               /\ v = converted field value /\ value <> []).
  { intros field v Hget.
    pose proof (payload_field headers (valuesOf line) field) as H.
    rewrite Hget in H.
    destruct H as (index & value & (h & Hh & Hm & _ & Hne) & -> & _).
    exists h, value. repeat split; auto.
    eapply nth_error_In; eassumption. }
  split; [|split].
  - intros field Hf.
    assert (Ht : Obj.truthy field (payload headers (valuesOf line)) = true).
    { unfold hasRequired in Hreq.
      apply andb_prop in Hreq as [Hreq H4]. apply andb_prop in Hreq as [Hreq H3].
      apply andb_prop in Hreq as [H1 H2].
      destruct Hf as [<-|[<-|[<-|[<-|[]]]]]; assumption. }
    unfold Obj.truthy in Ht.
    destruct (Obj.get field (payload headers (valuesOf line))) as [v|] eqn:Hget;
      [|discriminate].
    destruct (Hfit _ _ Hget) as (_ & value & _ & _ & -> & Hne).
    rewrite (convert_required parseInt parseFloat toLowerCase _ value Hf).
    exists value. split; [reflexivity | exact Hne].
  - intros field v Hget.
    destruct (Hfit _ _ Hget) as (header & value & _ & Hm & -> & Hne).
    pose proof (lookupHeader_target _ _ _ Hm) as Hfield.
    split; [exact Hfield|].
    apply convert_fits; [exact Hfield|].
    destruct (JsString.nonempty value) eqn:E; [reflexivity|].
    apply nonempty_false in E. contradiction.
  - intros Hplain field v Hget.
    destruct (Hfit _ _ Hget) as (header & value & Hh & Hm & _).
    unfold mappedFieldOf in Hm. rewrite lookupHeader_app in Hm.
    destruct (lookupHeader headerMap header) as [f|] eqn:Hown.
    + injection Hm as <-. exact (lookupHeader_target _ _ _ Hown).
    + exfalso. apply lookupHeader_source in Hm as (k & Hk & Heq).
      apply eqb_eq in Heq. subst header.
      apply (Hplain k); [|exact Hh].
      apply in_map_iff. exists (k, field). auto.
Qed.

End Payloads.

(** The theorem of X11 on the first payload of [sampleUpload]. *)
Lemma payloads_are_well_typed_witness :
  In "semester"%string (map snd (headerMap ++ inherited))
  /\ fits "semester" (FNum 3) = true.
Proof.
  exact (proj1 (proj2 (payloads_are_well_typed
                         Digits.parse Digits.parse Letters.toLowerCase
                         sampleUpload _ _ eq_refl (or_introl eq_refl)))
               "semester"%string (FNum 3) eq_refl).
Defined.

(** * Properties of the upload page *)

Section UploadPage.

Variable parseInt : jsstring -> float.
Variable parseFloat : jsstring -> float.
Variable toLowerCase : jsstring -> jsstring.
Context {Store : Type}.
Variable insert : list Payload -> Store -> Store * option StoreError.
Variable invoke : Store -> Store * option StoreError.

Local Abbreviation upload :=
  (Upload.handleFileUpload parseInt parseFloat toLowerCase insert invoke).
Local Abbreviation loop := (Upload.insertBatches insert).

(** Closes [Forall Upload.inProgress l] for a list of statuses in progress. *)
Local Ltac progressing :=
  repeat first [ apply Forall_nil
               | apply Forall_cons; [first [left; reflexivity | right; reflexivity]|] ].

(** X12: an upload that is refused makes no call to the store client.
    This holds when the file has neither an accepted type nor a sheet
    extension, when it cannot be read, when its text has fewer than two
    non-blank lines, and when no row of it is valid; the last status set
    is an error status with progress 0, and a failure toast with the same
    message is shown except for the file-type refusal. *)
Theorem refused_upload_makes_no_call (file : Upload.File) (st : Store) :
  Upload.accepted file = false
  \/ Upload.text file = None
  \/ (exists content : jsstring,
         Upload.text file = Some content
         /\ (parseCSVContent parseInt parseFloat toLowerCase content = Students []
             \/ exists thrown, parseCSVContent parseInt parseFloat toLowerCase content
                               = ParseError thrown)) ->
  Upload.calls (upload (Some file) st) = []
  /\ Upload.store (upload (Some file) st) = st
  /\ exists (before : list Upload.UploadStatus) (shown : string),
      Upload.statuses (upload (Some file) st) = before ++ [Upload.errorStatus shown]
      /\ Forall Upload.inProgress before
      /\ Upload.toasts (upload (Some file) st)
         = if Upload.accepted file
           then [{| Upload.title := "Upload Failed"; Upload.description := shown;
                    Upload.destructive := true |}]
           else [].
Proof.
  intros Hcause. unfold Upload.handleFileUpload, Upload.accepted in *.
  destruct (Str.includes Upload.validTypes (Upload.type file)
            || Upload.hasSheetExtension (Upload.name file)) eqn:Hacc.
  - assert (Hneg : negb (Str.includes Upload.validTypes (Upload.type file))
                   && negb (Upload.hasSheetExtension (Upload.name file)) = false)
      by (rewrite <- negb_orb, Hacc; reflexivity).
    rewrite Hneg.
    assert (Hfail : forall thrown (p : @Upload.Page Store),
               thrown <> EmptyString ->
               Upload.calls (Upload.failWith thrown p) = Upload.calls p
               /\ Upload.store (Upload.failWith thrown p) = Upload.store p
               /\ Upload.statuses (Upload.failWith thrown p)
                  = Upload.statuses p ++ [Upload.errorStatus thrown]
               /\ Upload.toasts (Upload.failWith thrown p)
                  = Upload.toasts p
                    ++ [{| Upload.title := "Upload Failed";
                           Upload.description := thrown;
                           Upload.destructive := true |}]).
    { intros thrown p Hne. unfold Upload.failWith.
      destruct (String.eqb thrown EmptyString) eqn:E;
        [apply String.eqb_eq in E; contradiction|]. cbn. auto. }
    destruct Hcause as [H|[H|(content & Hc & H)]]; [discriminate| |].
    + rewrite H.
      match goal with |- context [Upload.failWith ?m ?p] =>
        destruct (Hfail m p ltac:(discriminate)) as (-> & -> & -> & ->) end.
      cbn. repeat split.
      exists [Upload.started], "Failed to read file"%string.
      split; [reflexivity|]. split; [progressing | reflexivity].
    + rewrite Hc.
      assert (Hthrown : forall thrown,
                 parseCSVContent parseInt parseFloat toLowerCase content = ParseError thrown ->
                 thrown <> EmptyString).
      { intros thrown Hp. unfold parseCSVContent in Hp. cbv zeta in Hp.
        destruct (Nat.ltb _ 2); [|discriminate].
        injection Hp as <-. discriminate. }
      destruct H as [H|(thrown & H)]; rewrite H.
      * match goal with |- context [Upload.failWith ?m ?p] =>
          destruct (Hfail m p ltac:(discriminate)) as (-> & -> & -> & ->) end.
        cbn. repeat split.
        exists [Upload.started; Upload.parsing],
          "No valid student records found in the file"%string.
        split; [reflexivity|]. split; [progressing | reflexivity].
      * match goal with |- context [Upload.failWith ?m ?p] =>
          destruct (Hfail m p (Hthrown _ H)) as (-> & -> & -> & ->) end.
        cbn. repeat split.
        exists [Upload.started; Upload.parsing], thrown.
        split; [reflexivity|]. split; [progressing | reflexivity].
  - assert (Hneg : negb (Str.includes Upload.validTypes (Upload.type file))
                   && negb (Upload.hasSheetExtension (Upload.name file)) = true)
      by (rewrite <- negb_orb, Hacc; reflexivity).
    rewrite Hneg. cbn. repeat split.
    exists [], "Please upload a valid CSV or Excel file (.csv, .xlsx, .xls)"%string.
    split; [reflexivity|]. split; [progressing | reflexivity].
Qed.



End UploadPage.

Section UploadRuns.

(** The theorem of X12 on a file that cannot be read. *)
Lemma refused_upload_makes_no_call_witness :
  Upload.calls (Upload.handleFileUpload Digits.parse Digits.parse Letters.toLowerCase
                  Upload.scriptedInsert Upload.scriptedInvoke
                  (Some unreadableFile) failingClient) = [].
Proof.
  exact (proj1 (refused_upload_makes_no_call
                  Digits.parse Digits.parse Letters.toLowerCase
                  Upload.scriptedInsert Upload.scriptedInvoke
                  unreadableFile failingClient (or_intror (or_introl eq_refl)))).
Defined.


End UploadRuns.

(** * Properties of the counters *)

Section Counters.

Lemma count_fold (rows : list Reports.Row) :
  forall acc : Dashboard.RiskCounts,
    fold_left Dashboard.count (map Reports.risk_level rows) acc
    = {| Dashboard.highRisk :=
           Dashboard.highRisk acc
           + List.length (filter (Reports.hasLevel high) rows);
         Dashboard.mediumRisk :=
           Dashboard.mediumRisk acc
           + List.length (filter (Reports.hasLevel medium) rows);
         Dashboard.lowRisk :=
           Dashboard.lowRisk acc
           + List.length (filter (Reports.hasLevel low) rows) |}.
Proof.
  induction rows as [|[[[]|] a c] rows IH]; intros [h m l]; cbn [map fold_left].
  - cbn. now rewrite !Nat.add_0_r.
  - rewrite IH. cbn. f_equal; lia.
  - rewrite IH. cbn. f_equal; lia.
  - rewrite IH. cbn. f_equal; lia.
  - rewrite IH. cbn. reflexivity.
Qed.

(** X14: the four counters of the report partition the rows counted:
    total = highRisk + mediumRisk + lowRisk + unanalyzed.  The dashboard,
    which counts the same levels in one pass, finds the same three
    numbers, and none when the rows are missing.  Without rows both
    averages are 0, not the NaN of a division by zero. *)
Theorem counters_partition_the_rows (rows : list Reports.Row) :
  Reports.total (Reports.getStatistics rows)
  = Reports.highRisk (Reports.getStatistics rows)
    + Reports.mediumRisk (Reports.getStatistics rows)
    + Reports.lowRisk (Reports.getStatistics rows)
    + Reports.unanalyzed (Reports.getStatistics rows)
  /\ Reports.total (Reports.getStatistics rows) = List.length rows
  /\ Dashboard.riskCounts (Some (map Reports.risk_level rows))
     = {| Dashboard.highRisk := Reports.highRisk (Reports.getStatistics rows);
          Dashboard.mediumRisk := Reports.mediumRisk (Reports.getStatistics rows);
          Dashboard.lowRisk := Reports.lowRisk (Reports.getStatistics rows) |}
  /\ Dashboard.riskCounts None
     = {| Dashboard.highRisk := 0; Dashboard.mediumRisk := 0;
          Dashboard.lowRisk := 0 |}
  /\ Reports.averageAttendance (Reports.getStatistics []) = 0%float
  /\ Reports.averageCGPA (Reports.getStatistics []) = 0%float.
Proof.
  split; [|split; [reflexivity|split; [|repeat split]]].
  - cbn [Reports.getStatistics Reports.total Reports.highRisk Reports.mediumRisk
         Reports.lowRisk Reports.unanalyzed].
    induction rows as [|[[[]|] a c] rows IH]; cbn in *; lia.
  - unfold Dashboard.riskCounts. rewrite count_fold. reflexivity.
Qed.

End Counters.

(** * Line endings of an upload *)

Section LineEndings.

Variable parseInt : jsstring -> float.
Variable parseFloat : jsstring -> float.
Variable toLowerCase : jsstring -> jsstring.

Lemma trimEnd_space (c : N) (s : jsstring) :
  JsString.is_space c = true ->
  JsString.trimEnd (s ++ [c]) = JsString.trimEnd s.
Proof.
  intros Hc. induction s as [|a s IH]; cbn.
  - now rewrite Hc.
  - now rewrite IH.
Qed.

Lemma trimStart_space (c : N) (s : jsstring) :
  JsString.is_space c = true ->
  JsString.trimStart (s ++ [c])
  = match JsString.trimStart s with
    | [] => []
    | t => t ++ [c]
    end.
Proof.
  intros Hc. induction s as [|a s IH]; cbn.
  - now rewrite Hc.
  - destruct (JsString.is_space a); [exact IH | reflexivity].
Qed.

Lemma trim_space (c : N) (s : jsstring) :
  JsString.is_space c = true -> JsString.trim (s ++ [c]) = JsString.trim s.
Proof.
  intros Hc. unfold JsString.trim. rewrite (trimStart_space c s Hc).
  destruct (JsString.trimStart s) as [|a t]; [reflexivity|].
  apply (trimEnd_space c (a :: t) Hc).
Qed.

Lemma split_snoc (sep c : N) (s : jsstring) :
  N.eqb c sep = false ->
  JsString.split sep (s ++ [c]) = snocLast c (JsString.split sep s).
Proof.
  intros Hc. induction s as [|a s IH]; cbn.
  - now rewrite Hc.
  - rewrite IH.
    pose proof (split_nonempty sep s) as Hne.
    destruct (N.eqb a sep).
    + destruct (JsString.split sep s) as [|p ps]; [contradiction|reflexivity].
    + destruct (JsString.split sep s) as [|p [|q ps]]; [contradiction| |];
        reflexivity.
Qed.

Lemma map_trim_snocLast (f : jsstring -> jsstring) (c : N)
  (pieces : list jsstring) :
  JsString.is_space c = true ->
  map (fun p => f (JsString.trim p)) (snocLast c pieces)
  = map (fun p => f (JsString.trim p)) pieces.
Proof.
  intros Hc. induction pieces as [|p [|q ps] IH]; [reflexivity| |].
  - cbn [snocLast map]. do 2 f_equal. exact (trim_space c p Hc).
  - change (snocLast c (p :: q :: ps)) with (p :: snocLast c (q :: ps)).
    cbn [map]. now rewrite IH.
Qed.

Lemma sameLine_values (a b : jsstring) :
  sameLine a b ->
  valuesOf b = valuesOf a /\ headersOf toLowerCase b = headersOf toLowerCase a
  /\ JsString.nonempty (JsString.trim b) = JsString.nonempty (JsString.trim a).
Proof.
  intros [->| ->]; [auto|].
  unfold valuesOf, headersOf, cellsOf.
  rewrite (split_snoc comma CR a eq_refl).
  rewrite (map_trim_snocLast toLowerCase CR _ eq_refl).
  pose proof (map_trim_snocLast (fun x => x) CR (JsString.split comma a) eq_refl)
    as H.
  cbn beta in H.
  repeat split.
  - etransitivity; [|etransitivity; [exact H|]]; apply map_ext; reflexivity.
  - now rewrite (trim_space CR a eq_refl).
Qed.

Lemma split_crlf (content : jsstring) :
  JsString.split LF (crlf content) = returned (JsString.split LF content).
Proof.
  induction content as [|a s IH]; [reflexivity|].
  cbn [crlf JsString.split].
  pose proof (split_nonempty LF s) as Hne.
  destruct (N.eqb a LF) eqn:Ha.
  - cbn [JsString.split]. change (N.eqb CR LF) with false.
    change (N.eqb LF LF) with true. cbn iota. rewrite IH.
    destruct (JsString.split LF s) as [|p ps]; [contradiction|reflexivity].
  - cbn [JsString.split]. rewrite Ha, IH.
    destruct (JsString.split LF s) as [|p [|q ps]]; [contradiction| |];
      reflexivity.
Qed.

Lemma returned_sameLine (pieces : list jsstring) :
  Forall2 sameLine pieces (returned pieces).
Proof.
  induction pieces as [|p [|q ps] IH]; [constructor| |].
  - constructor; [now left | constructor].
  - change (returned (p :: q :: ps)) with ((p ++ [CR]) :: returned (q :: ps)).
    constructor; [now right | exact IH].
Qed.

Lemma filter_sameLine (l l' : list jsstring) :
  Forall2 sameLine l l' ->
  Forall2 sameLine
          (filter (fun line => JsString.nonempty (JsString.trim line)) l)
          (filter (fun line => JsString.nonempty (JsString.trim line)) l').
Proof.
  induction 1 as [|a b l l' Hab _ IH]; [constructor|].
  cbn. destruct (sameLine_values a b Hab) as (_ & _ & ->).
  destruct (JsString.nonempty (JsString.trim a)); [constructor|]; assumption.
Qed.

Lemma parseRows_sameLine (headers : list jsstring) (l l' : list jsstring) :
  Forall2 sameLine l l' ->
  forall students : list Payload,
    parseRows parseInt parseFloat toLowerCase headers l' students
    = parseRows parseInt parseFloat toLowerCase headers l students.
Proof.
  induction 1 as [|a b l l' Hab _ IH]; intros students; [reflexivity|].
  cbn [parseRows]. destruct (sameLine_values a b Hab) as (-> & _ & _).
  destruct (Nat.ltb _ _); [apply IH|].
  destruct (hasRequired _); apply IH.
Qed.

(** X15: an upload with CRLF line endings is parsed as the same upload
    with LF line endings: the carriage return left at the end of each line
    changes neither the header names, nor the values, nor which lines
    count as blank, nor the outcome. *)
Theorem crlf_upload_parses_alike (content : jsstring) :
  parseCSVContent parseInt parseFloat toLowerCase (crlf content)
  = parseCSVContent parseInt parseFloat toLowerCase content.
Proof.
  unfold parseCSVContent; cbv zeta.
  assert (H : Forall2 sameLine (linesOf content) (linesOf (crlf content))).
  { unfold linesOf. rewrite split_crlf.
    apply filter_sameLine, returned_sameLine. }
  rewrite <- (Forall2_length H).
  destruct (Nat.ltb (List.length (linesOf content)) 2); [reflexivity|].
  f_equal. destruct H as [|a b l l' Hab Hrest]; [reflexivity|].
  cbn [hd tl]. destruct (sameLine_values a b Hab) as (_ & -> & _).
  now apply parseRows_sameLine.
Qed.

End LineEndings.
